(** * ArchFairFight: challenge state machine, winner detection and fight orchestration

    A shallow embedding of
    - [src/archfairfight/challenge/state_machine.py]  (ChallengeStateMachine),
    - [src/archfairfight/ai/winner_detector.py]       (WinnerDetector),
    - [src/archfairfight/challenge/manager.py]        (ChallengeManager),
    together with the parts of the persistence, recording and userbot
    collaborators ([database/operations.py], [database/models.py],
    [userbot/manager.py]) that the manager observably relies on.

    Conventions.
    - Timestamps ([datetime.utcnow()]) are integers counting microseconds,
      the resolution of Python's [datetime]; durations in seconds are Z.
    - Numeric metric values are rationals [Q]: the arithmetic of the
      winner detector is done exactly (floating-point rounding is not
      modelled).
    - A Python dict used as a map is a stdpp [gmap]. *)

From Stdlib Require Import ZArith QArith Qabs Lqa.
From stdpp Require Import base list gmap strings pretty sorting.
From Stdlib Require Import Ascii.

Open Scope Z_scope.

(* ------------------------------------------------------------------ *)
(** ** The challenge state machine (challenge/state_machine.py) *)

Inductive ChallengeState :=
  | CREATED
  | SENT
  | ACCEPTED
  | DECLINED
  | FIGHT_TYPE_SELECTED
  | PARTICIPANTS_JOINING
  | FIGHT_ACTIVE
  | FIGHT_FINISHED
  | EXPIRED
  | CANCELLED.

Global Instance ChallengeState_eq_dec : EqDecision ChallengeState.
Proof. solve_decision. Defined.

(** [ChallengeStateMachine.VALID_TRANSITIONS], the class-level mapping
    literal; each set is written as a list. *)
Definition VALID_TRANSITIONS (s : ChallengeState) : list ChallengeState :=
  match s with
  | CREATED => [SENT; CANCELLED]
  | SENT => [ACCEPTED; DECLINED; EXPIRED; CANCELLED]
  | ACCEPTED => [FIGHT_TYPE_SELECTED; CANCELLED]
  | FIGHT_TYPE_SELECTED => [PARTICIPANTS_JOINING; CANCELLED]
  | PARTICIPANTS_JOINING => [FIGHT_ACTIVE; EXPIRED; CANCELLED]
  | FIGHT_ACTIVE => [FIGHT_FINISHED; CANCELLED]
  | FIGHT_FINISHED => []
  | EXPIRED => []
  | DECLINED => []
  | CANCELLED => []
  end.

(** An instance of [ChallengeStateMachine]: its two attributes. *)
Record StateMachine := mkStateMachine {
  current_state : ChallengeState;
  state_history : list (ChallengeState * Z)
}.

(** [__init__(initial_state)] at time [now]. *)
Definition new_state_machine (initial_state : ChallengeState) (now : Z)
  : StateMachine :=
  mkStateMachine initial_state [(initial_state, now)].

Definition can_transition_to (sm : StateMachine) (new_state : ChallengeState)
  : bool :=
  bool_decide (new_state ∈ VALID_TRANSITIONS (current_state sm)).

(** [transition_to(new_state)]: the boolean result and the machine after
    the call; [now] is the value [datetime.utcnow()] returns. *)
Definition transition_to (now : Z) (sm : StateMachine)
    (new_state : ChallengeState) : bool * StateMachine :=
  if negb (can_transition_to sm new_state) then (false, sm)
  else (true, mkStateMachine new_state
                (state_history sm ++ [(new_state, now)])).

Definition is_terminal_state (sm : StateMachine) : bool :=
  match VALID_TRANSITIONS (current_state sm) with [] => true | _ => false end.

(** [get_time_in_state()]: [int((utcnow() - last).total_seconds())],
    i.e. the elapsed microseconds truncated to whole seconds. *)
Definition get_time_in_state (now : Z) (sm : StateMachine) : Z :=
  match last (state_history sm) with
  | None => 0
  | Some (_, t) => Z.quot (now - t) 1000000
  end.

(** The allowed-target sets as the claim lists them (used only to compare
    with [VALID_TRANSITIONS]). *)
Definition claimed_targets (s t : ChallengeState) : Prop :=
  match s with
  | CREATED => t = SENT \/ t = CANCELLED
  | SENT => t = ACCEPTED \/ t = DECLINED \/ t = EXPIRED \/ t = CANCELLED
  | ACCEPTED => t = FIGHT_TYPE_SELECTED \/ t = CANCELLED
  | FIGHT_TYPE_SELECTED => t = PARTICIPANTS_JOINING \/ t = CANCELLED
  | PARTICIPANTS_JOINING => t = FIGHT_ACTIVE \/ t = EXPIRED \/ t = CANCELLED
  | FIGHT_ACTIVE => t = FIGHT_FINISHED \/ t = CANCELLED
  | DECLINED | FIGHT_FINISHED | EXPIRED | CANCELLED => False
  end.

(* ------------------------------------------------------------------ *)
(** ** Database enums (database/models.py) *)

Inductive FightType := TIMING | VOLUME.

Inductive FightResult := WIN | LOSS | DRAW | NO_SHOW | FR_CANCELLED.

Inductive ChallengeStatus :=
  | PENDING | CS_ACCEPTED | CS_DECLINED | IN_PROGRESS | COMPLETED
  | CS_CANCELLED | CS_EXPIRED.

Global Instance FightType_eq_dec : EqDecision FightType.
Proof. solve_decision. Defined.
Global Instance FightResult_eq_dec : EqDecision FightResult.
Proof. solve_decision. Defined.
Global Instance ChallengeStatus_eq_dec : EqDecision ChallengeStatus.
Proof. solve_decision. Defined.

(* ------------------------------------------------------------------ *)
(** ** Metrics bags and Python's failing operations *)

Open Scope Q_scope.

(** A value stored in a metrics dict ([Dict[str, Any]]): a number, or a
    non-numeric value such as [None] on which every arithmetic operation
    and every ordering comparison used below raises [TypeError]. *)
Inductive PyVal := PyNum (q : Q) | PyBad.

Abbreviation Metrics := (gmap string PyVal).

(** [d.get(k, default)] *)
Definition py_get (m : Metrics) (k : string) (default : PyVal) : PyVal :=
  match m !! k with Some v => v | None => default end.

(** Use of a value in arithmetic or in [<]/[>]: [None] means the
    expression raised. *)
Definition num (v : PyVal) : option Q :=
  match v with PyNum q => Some q | PyBad => None end.

Definition Qgtb (a b : Q) : bool := negb (Qle_bool a b).
Definition Qltb (a b : Q) : bool := negb (Qle_bool b a).

(* ------------------------------------------------------------------ *)
(** ** Winner detection (ai/winner_detector.py) *)

(** The returned triple [(winner_participant_number, p1_result, p2_result)]. *)
Abbreviation Outcome := (option nat * FightResult * FightResult)%type.

Definition draw_outcome : Outcome := (None, DRAW, DRAW).

(** [_analyze_timing_fight]; the [except] branch is the [None] case of the
    [try] body. *)
Definition analyze_timing_fight_body (p1 p2 : Metrics) : option Outcome :=
  a ← num (py_get p1 "total_join_time" (PyNum 0));
  b ← num (py_get p2 "total_join_time" (PyNum 0));
  let time_difference := Qabs (a - b) in
  if Qltb time_difference 5 then Some draw_outcome
  else if Qgtb a b then Some (Some 1%nat, WIN, LOSS)
  else Some (Some 2%nat, LOSS, WIN).

Definition analyze_timing_fight (p1 p2 : Metrics) : Outcome :=
  match analyze_timing_fight_body p1 p2 with
  | Some o => o
  | None => draw_outcome
  end.

(** [_calculate_activity_score]: the [try] body.  The conditional
    expression evaluates [total_join_time > 0] first and touches
    [speak_time] only when it holds. *)
Definition calculate_activity_score_body (m : Metrics) : option Q :=
  let speak_time := py_get m "speak_time" (PyNum 0) in
  let average_volume := py_get m "average_volume" (PyNum 0) in
  let total_join_time := py_get m "total_join_time" (PyNum 1) in
  tj ← num total_join_time;
  speaking_percentage ←
    (if Qgtb tj 0 then st ← num speak_time; Some (st / tj) else Some 0);
  av ← num average_volume;
  Some (speaking_percentage * (7 # 10) + (av / 10000) * (3 # 10)).

Definition calculate_activity_score (m : Metrics) : Q :=
  match calculate_activity_score_body m with
  | Some s => s
  | None => 0
  end.

(** [_analyze_volume_fight]; [threshold] is [self.config.volume_threshold].
    The body cannot raise: the scores are already caught. *)
Definition analyze_volume_fight (threshold : Q) (p1 p2 : Metrics) : Outcome :=
  let p1_score := calculate_activity_score p1 in
  let p2_score := calculate_activity_score p2 in
  let score_difference := Qabs (p1_score - p2_score) in
  if Qltb score_difference threshold then draw_outcome
  else if Qgtb p1_score p2_score then (Some 1%nat, WIN, LOSS)
  else (Some 2%nat, LOSS, WIN).

(** [determine_winner]; the [fight_type] argument is any value: [Some t]
    for a [FightType] member, [None] for anything else. *)
Definition determine_winner (volume_threshold : Q) (fight_type : option FightType)
    (p1 p2 : Metrics) : Outcome :=
  match fight_type with
  | Some TIMING => analyze_timing_fight p1 p2
  | Some VOLUME => analyze_volume_fight volume_threshold p1 p2
  | None => draw_outcome
  end.

(** The three consistent outcomes of the output contract. *)
Definition consistent_outcome (o : Outcome) : Prop :=
  o = (Some 1%nat, WIN, LOSS) \/ o = (Some 2%nat, LOSS, WIN) \/ o = draw_outcome.

Open Scope Z_scope.

(* ------------------------------------------------------------------ *)
(** ** Persisted records (database/models.py) and configuration *)

(** The fields of a [Challenge] document the manager reads or writes. *)
Record ChallengeRec := mkChallenge {
  ch_challenger_id : Z;
  ch_opponent_id : Z;
  ch_fight_type : option FightType;
  ch_status : ChallengeStatus;
  ch_expires_at : Z
}.

(** A validated [Fight] document. *)
Record FightRec := mkFight {
  f_challenge_id : string;
  f_participant1_id : Z;
  f_participant2_id : Z;
  f_fight_type : FightType;
  f_duration : Z;
  f_winner_id : option Z;
  f_participant1_result : FightResult;
  f_participant2_result : FightResult;
  f_participant1_metrics : Metrics;
  f_participant2_metrics : Metrics;
  f_group_call_id : string;
  f_started_at : Z;
  f_ended_at : Z
}.

(** The keyword arguments of a [Fight(...)] call: [None] for a field that
    is not passed.  [fa_fight_type] holds the passed Python value, itself
    possibly [None]. *)
Record FightArgs := mkFightArgs {
  fa_challenge_id : option string;
  fa_participant1_id : option Z;
  fa_participant2_id : option Z;
  fa_fight_type : option (option FightType);
  fa_duration : option Z;
  fa_participant1_result : option FightResult;
  fa_participant2_result : option FightResult;
  fa_group_call_id : option string;
  fa_started_at : option Z;
  fa_ended_at : option Z
}.

(** Pydantic validation of [Fight]: every field declared with
    [Field(...)] is required ([challenge_id], [participant1_id],
    [participant2_id], [fight_type], [duration], [participant1_result],
    [participant2_result], [group_call_id], [started_at], [ended_at]);
    the others take their defaults.  [None] is a [ValidationError]. *)
Definition Fight_validate (a : FightArgs) : option FightRec :=
  cid ← fa_challenge_id a;
  p1 ← fa_participant1_id a;
  p2 ← fa_participant2_id a;
  ft ← fa_fight_type a; ft ← ft;
  dur ← fa_duration a;
  r1 ← fa_participant1_result a;
  r2 ← fa_participant2_result a;
  gc ← fa_group_call_id a;
  st ← fa_started_at a;
  en ← fa_ended_at a;
  Some (mkFight cid p1 p2 ft dur None r1 r2 ∅ ∅ gc st en).

Record UserStats := mkUserStats {
  total_fights : Z;
  wins : Z;
  losses : Z;
  draws : Z
}.

Definition add_stats (u d : UserStats) : UserStats :=
  mkUserStats (total_fights u + total_fights d) (wins u + wins d)
              (losses u + losses d) (draws u + draws d).

(** The configuration values the manager and the detector read. *)
Record Config := mkConfig {
  challenge_timeout : Z;
  max_fight_duration : Z;
  monitoring_interval : Z;
  volume_threshold : Q
}.

(* ------------------------------------------------------------------ *)
(** ** The manager's world *)

(** Calls into the collaborators and the log events of the manager, in
    the order they happen. *)
(** The replies [callback_query.answer(...)] of the bot handlers. *)
Inductive AnswerKind := AnsNotFound | AnsNotForYou | AnsAlreadyResponded.

Inductive Event :=
  | EvSleep (seconds : Z)
  | EvGetChallenge (cid : string)
  | EvCheckJoined
  | EvStartRecording (fid : string) (video : bool)
  | EvStopRecording (fid : string)
  | EvGetMetrics
  | EvUpdateMetrics (fid : string) (pid : Z)
  | EvAreActive
  | EvCreateFight
  | EvFinishFight (fid : string) (winner : option Z) (r1 r2 : FightResult)
  | EvUpdateStatus (cid : string) (st : ChallengeStatus)
  | EvUpdateUserStats (uid : Z) (d : UserStats)
  | EvCleanupFight (p1 p2 : Z)
  | EvExpireDb
  | EvTransition (cid : string) (old new : ChallengeState)
  | EvInvalidTransition (cid : string) (cur new : ChallengeState)
  | EvCancelled
  | EvGetPending (telegram_id : Z)
  | EvCreateChallenge
  | EvAnswer (reply : AnswerKind)
  | EvEditMessage (accepted : bool)
  | EvGetUsers (uid : Z)
  | EvSendMessage (chat_id : Z).

Record World := mkWorld {
  w_active : gmap string StateMachine;   (* self._active_challenges *)
  w_fight_tasks : gset string;           (* keys of self._fight_tasks *)
  w_challenges : gmap string ChallengeRec;
  w_fights : gmap string FightRec;
  w_users : gmap Z UserStats;
  w_clock : Z;                           (* utcnow(), microseconds *)
  w_trace : list Event;
  w_awaits : nat;                        (* awaits passed by the task *)
  w_iteration : option nat;              (* sampling iteration running *)
  w_cancelled_at : option (option nat)   (* where CancelledError arrived *)
}.

Definition set_active a w := mkWorld a (w_fight_tasks w) (w_challenges w)
  (w_fights w) (w_users w) (w_clock w) (w_trace w) (w_awaits w)
  (w_iteration w) (w_cancelled_at w).
Definition set_fight_tasks t w := mkWorld (w_active w) t (w_challenges w)
  (w_fights w) (w_users w) (w_clock w) (w_trace w) (w_awaits w)
  (w_iteration w) (w_cancelled_at w).
Definition set_challenges c w := mkWorld (w_active w) (w_fight_tasks w) c
  (w_fights w) (w_users w) (w_clock w) (w_trace w) (w_awaits w)
  (w_iteration w) (w_cancelled_at w).
Definition set_fights f w := mkWorld (w_active w) (w_fight_tasks w)
  (w_challenges w) f (w_users w) (w_clock w) (w_trace w) (w_awaits w)
  (w_iteration w) (w_cancelled_at w).
Definition set_users u w := mkWorld (w_active w) (w_fight_tasks w)
  (w_challenges w) (w_fights w) u (w_clock w) (w_trace w) (w_awaits w)
  (w_iteration w) (w_cancelled_at w).
Definition set_clock c w := mkWorld (w_active w) (w_fight_tasks w)
  (w_challenges w) (w_fights w) (w_users w) c (w_trace w) (w_awaits w)
  (w_iteration w) (w_cancelled_at w).
Definition log_event e w := mkWorld (w_active w) (w_fight_tasks w)
  (w_challenges w) (w_fights w) (w_users w) (w_clock w) (w_trace w ++ [e])
  (w_awaits w) (w_iteration w) (w_cancelled_at w).
Definition bump_awaits w := mkWorld (w_active w) (w_fight_tasks w)
  (w_challenges w) (w_fights w) (w_users w) (w_clock w) (w_trace w)
  (S (w_awaits w)) (w_iteration w) (w_cancelled_at w).
Definition set_iteration i w := mkWorld (w_active w) (w_fight_tasks w)
  (w_challenges w) (w_fights w) (w_users w) (w_clock w) (w_trace w)
  (w_awaits w) i (w_cancelled_at w).
Definition set_cancelled_at c w := mkWorld (w_active w) (w_fight_tasks w)
  (w_challenges w) (w_fights w) (w_users w) (w_clock w) (w_trace w)
  (w_awaits w) (w_iteration w) c.

(** What the collaborators answer, and the cancellation request of the
    running task: [env_cancel_at = Some n] delivers [CancelledError] at
    its [n]-th await (counting from 0). *)
Record Env := mkEnv {
  env_config : Config;
  env_joined : bool;                              (* check_participants_joined *)
  env_metrics : nat -> option (option Metrics * option Metrics);
      (* get_fight_metrics at sampling iteration i: None, or the dict's
         'participant1' / 'participant2' entries *)
  env_active : nat -> bool;                       (* are_participants_active *)
  env_cancel_at : option nat
}.

Definition with_cancel (e : Env) (c : option nat) : Env :=
  mkEnv (env_config e) (env_joined e) (env_metrics e) (env_active e) c.

(* ------------------------------------------------------------------ *)
(** ** The task monad: state, collaborator answers and Python exceptions *)

(** [PyException] is any [Exception] (caught by [except Exception]);
    [CancelledError] derives from [BaseException] and is not. *)
Inductive exn := PyException | CancelledError.

Inductive res (A : Type) := Ok (a : A) | Raise (e : exn).
Arguments Ok {A} a.
Arguments Raise {A} e.

Definition M (A : Type) : Type := Env -> World -> res A * World.

Global Instance M_ret : MRet M := fun A a _ w => (Ok a, w).
Global Instance M_bind : MBind M := fun A B f m e w =>
  match m e w with
  | (Ok a, w') => f a e w'
  | (Raise x, w') => (Raise x, w')
  end.

Definition raise {A} (x : exn) : M A := fun _ w => (Raise x, w).

(** A step of the manager's own, synchronous code. *)
Definition modify (f : World -> World) : M unit := fun _ w => (Ok tt, f w).
Definition gets {A} (f : World -> A) : M A := fun _ w => (Ok (f w), w).
Definition asks {A} (f : Env -> A) : M A := fun e w => (Ok (f e), w).

(** Python attribute access or arithmetic that may raise. *)
Definition lift_opt {A} (o : option A) : M A :=
  match o with Some a => mret a | None => raise PyException end.

(** [try: m except Exception: h] *)
Definition try_except {A} (m : M A) (h : M A) : M A := fun e w =>
  match m e w with
  | (Raise PyException, w') => h e w'
  | r => r
  end.

(** Whether the cancellation requested by [task.cancel()] is delivered
    at the task's next await. *)
Definition cancel_now (e : Env) (w : World) : bool :=
  match env_cancel_at e with
  | Some n => Nat.eqb n (w_awaits w)
  | None => false
  end.

(** An [await] of a collaborator call: a suspension point at which the
    task may receive [CancelledError]; otherwise the call [ev] is logged
    and performed. *)
Definition await_ {A} (ev : Event) (eff : Env -> World -> A * World) : M A :=
  fun e w =>
    if cancel_now e w then
      (Raise CancelledError,
       set_cancelled_at (Some (w_iteration w)) (log_event EvCancelled w))
    else
      let '(a, w') := eff e (log_event ev (bump_awaits w)) in (Ok a, w').

(* ------------------------------------------------------------------ *)
(** ** Collaborator calls (database/operations.py, userbot, recording) *)

(** [asyncio.sleep(seconds)] *)
Definition sleep (seconds : Z) : M unit :=
  await_ (EvSleep seconds)
    (fun _ w => (tt, set_clock (w_clock w + seconds * 1000000) w)).

Definition get_challenge (cid : string) : M (option ChallengeRec) :=
  await_ (EvGetChallenge cid) (fun _ w => (w_challenges w !! cid, w)).

Definition check_participants_joined : M bool :=
  await_ EvCheckJoined (fun e w => (env_joined e, w)).

Definition start_recording (fid : string) (video : bool) : M bool :=
  await_ (EvStartRecording fid video) (fun _ w => (true, w)).

Definition stop_recording (fid : string) : M unit :=
  await_ (EvStopRecording fid) (fun _ w => (tt, w)).

Definition get_fight_metrics (i : nat)
  : M (option (option Metrics * option Metrics)) :=
  await_ EvGetMetrics (fun e w => (env_metrics e i, w)).

Definition are_participants_active (i : nat) : M bool :=
  await_ EvAreActive (fun e w => (env_active e i, w)).

(** [FightOps.update_fight_metrics]: the participant1 field when [pid]
    is the fight's participant1, the participant2 field otherwise. *)
Definition update_fight_metrics (fid : string) (pid : Z) (m : Metrics)
  : M bool :=
  await_ (EvUpdateMetrics fid pid) (fun _ w =>
    match w_fights w !! fid with
    | None => (false, w)
    | Some f =>
        let f' := if decide (pid = f_participant1_id f)
          then mkFight (f_challenge_id f) (f_participant1_id f)
                 (f_participant2_id f) (f_fight_type f) (f_duration f)
                 (f_winner_id f) (f_participant1_result f)
                 (f_participant2_result f) m (f_participant2_metrics f)
                 (f_group_call_id f) (f_started_at f) (f_ended_at f)
          else mkFight (f_challenge_id f) (f_participant1_id f)
                 (f_participant2_id f) (f_fight_type f) (f_duration f)
                 (f_winner_id f) (f_participant1_result f)
                 (f_participant2_result f) (f_participant1_metrics f) m
                 (f_group_call_id f) (f_started_at f) (f_ended_at f) in
        (true, set_fights (<[fid := f']> (w_fights w)) w)
    end).

(** [FightOps.create_fight]: inserts the document under a fresh id. *)
Definition create_fight (f : FightRec) : M (option string) :=
  await_ EvCreateFight (fun _ w =>
    let fid := String.append "fight" (pretty (N.of_nat (size (w_fights w)))) in
    (Some fid, set_fights (<[fid := f]> (w_fights w)) w)).

(** [FightOps.finish_fight]: sets winner, both results and [ended_at];
    the update matches no document when [fid] is unknown. *)
Definition finish_fight (fid : string) (winner : option Z)
    (r1 r2 : FightResult) : M bool :=
  await_ (EvFinishFight fid winner r1 r2) (fun _ w =>
    match w_fights w !! fid with
    | None => (false, w)
    | Some f =>
        let f' := mkFight (f_challenge_id f) (f_participant1_id f)
                    (f_participant2_id f) (f_fight_type f) (f_duration f)
                    winner r1 r2 (f_participant1_metrics f)
                    (f_participant2_metrics f) (f_group_call_id f)
                    (f_started_at f) (w_clock w) in
        (true, set_fights (<[fid := f']> (w_fights w)) w)
    end).

(** [ChallengeOps.update_challenge_status] *)
Definition update_challenge_status (cid : string) (st : ChallengeStatus)
  : M bool :=
  await_ (EvUpdateStatus cid st) (fun _ w =>
    match w_challenges w !! cid with
    | None => (false, w)
    | Some c =>
        let c' := mkChallenge (ch_challenger_id c) (ch_opponent_id c)
                    (ch_fight_type c) st (ch_expires_at c) in
        (true, set_challenges (<[cid := c']> (w_challenges w)) w)
    end).

(** [UserOps.update_user_stats]: an [$inc] on the user's document
    (no upsert). *)
Definition update_user_stats (uid : Z) (d : UserStats) : M bool :=
  await_ (EvUpdateUserStats uid d) (fun _ w =>
    match w_users w !! uid with
    | None => (false, w)
    | Some u => (true, set_users (<[uid := add_stats u d]> (w_users w)) w)
    end).

(** [UserbotManager.cleanup_fight]: releases the userbots of the fight
    back to the pool. *)
Definition cleanup_fight (p1 p2 : Z) : M unit :=
  await_ (EvCleanupFight p1 p2) (fun _ w => (tt, w)).

(** [ChallengeOps.expire_old_challenges]: every PENDING challenge whose
    [challenge_expires_at] is before now becomes EXPIRED. *)
Definition expire_db_challenges : M Z :=
  await_ EvExpireDb (fun _ w =>
    let stale c := bool_decide (ch_status c = PENDING /\ ch_expires_at c < w_clock w) in
    let upd c := if stale c
      then mkChallenge (ch_challenger_id c) (ch_opponent_id c)
             (ch_fight_type c) CS_EXPIRED (ch_expires_at c)
      else c in
    (Z.of_nat (size (filter (fun kv => stale kv.2 = true) (w_challenges w))),
     set_challenges (upd <$> w_challenges w) w)).

(* ------------------------------------------------------------------ *)
(** ** ChallengeManager (challenge/manager.py) *)

(** [self._active_challenges[cid].transition_to(t)] on a present entry
    (with the log line [transition_to] writes); the boolean result. *)
Definition transition_entry (cid : string) (t : ChallengeState) : M bool :=
  fun _ w =>
    match w_active w !! cid with
    | None => (Ok false, w)
    | Some sm =>
        let '(ok, sm') := transition_to (w_clock w) sm t in
        let ev := if ok then EvTransition cid (current_state sm) t
                  else EvInvalidTransition cid (current_state sm) t in
        (Ok ok, log_event ev (set_active (<[cid := sm']> (w_active w)) w))
    end.

(** [cid in self._active_challenges] *)
Definition has_entry (cid : string) : M bool :=
  gets (fun w => bool_decide (is_Some (w_active w !! cid))).

(** [if cid in self._active_challenges:
       self._active_challenges[cid].transition_to(t)
       del self._active_challenges[cid]] *)
Definition finish_entry (cid : string) (t : ChallengeState) : M unit :=
  present ← has_entry cid;
  if (present : bool) then
    (_ ← transition_entry cid t;
     modify (fun w => set_active (delete cid (w_active w)) w))
  else mret tt.

Fixpoint mapM_ {A} (f : A -> M unit) (l : list A) : M unit :=
  match l with
  | [] => mret tt
  | x :: l' => f x;; mapM_ f l'
  end.

(** [_end_fight_no_show] *)
Definition end_fight_no_show (cid fid : string) : M unit :=
  try_except
    (_ ← finish_fight fid None NO_SHOW NO_SHOW;
     _ ← update_challenge_status cid COMPLETED;
     finish_entry cid FIGHT_FINISHED)
    (mret tt).

(** [_end_fight_error] *)
Definition end_fight_error (cid fid : string) : M unit :=
  try_except
    (_ ← finish_fight fid None FR_CANCELLED FR_CANCELLED;
     _ ← update_challenge_status cid CS_CANCELLED;
     finish_entry cid CANCELLED;;
     stop_recording fid)
    (mret tt).

(** The winner block of [_end_fight_with_results]: from the defaults
    [winner_id = None], [LOSS], [WIN]; [None] when the block raises
    (a non-numeric metric in [>] or [*], or [challenge.challenger_id]
    on a missing challenge). *)
Definition manager_outcome (fight_type : option FightType) (m1 m2 : Metrics)
    (challenge : option ChallengeRec)
  : option (option Z * FightResult * FightResult) :=
  match fight_type with
  | Some TIMING =>
      p1_time ← num (py_get m1 "join_time" (PyNum 0));
      p2_time ← num (py_get m2 "join_time" (PyNum 0));
      if Qgtb p1_time p2_time then
        c ← challenge; Some (Some (ch_challenger_id c), WIN, LOSS)
      else if Qgtb p2_time p1_time then
        c ← challenge; Some (Some (ch_opponent_id c), LOSS, WIN)
      else Some (None, DRAW, DRAW)
  | Some VOLUME =>
      s1 ← num (py_get m1 "speak_time" (PyNum 0));
      v1 ← num (py_get m1 "volume_sum" (PyNum 0));
      s2 ← num (py_get m2 "speak_time" (PyNum 0));
      v2 ← num (py_get m2 "volume_sum" (PyNum 0));
      let p1_activity := (s1 * v1)%Q in
      let p2_activity := (s2 * v2)%Q in
      if Qgtb p1_activity p2_activity then
        c ← challenge; Some (Some (ch_challenger_id c), WIN, LOSS)
      else if Qgtb p2_activity p1_activity then
        c ← challenge; Some (Some (ch_opponent_id c), LOSS, WIN)
      else Some (None, DRAW, DRAW)
  | None => Some (None, LOSS, WIN)
  end.

Definition one_win := mkUserStats 1 1 0 0.
Definition one_loss := mkUserStats 1 0 1 0.
Definition one_draw := mkUserStats 1 0 0 1.

(** The [update_user_stats] calls of [_end_fight_with_results]. *)
Definition stats_updates (c : ChallengeRec) (r1 r2 : FightResult)
  : list (Z * UserStats) :=
  if decide (r1 = WIN) then
    [(ch_challenger_id c, one_win); (ch_opponent_id c, one_loss)]
  else if decide (r2 = WIN) then
    [(ch_challenger_id c, one_loss); (ch_opponent_id c, one_win)]
  else
    [(ch_challenger_id c, one_draw); (ch_opponent_id c, one_draw)].

(** [_end_fight_with_results]; [duration] is only logged. *)
Definition end_fight_with_results (cid fid : string) (duration : Z)
    (m1 m2 : Metrics) (fight_type : option FightType) : M unit :=
  try_except
    (stop_recording fid;;
     challenge ← get_challenge cid;
     '(winner_id, r1, r2) ← lift_opt (manager_outcome fight_type m1 m2 challenge);
     _ ← finish_fight fid winner_id r1 r2;
     c ← lift_opt challenge;
     mapM_ (fun '(uid, d) => _ ← update_user_stats uid d; mret tt)
           (stats_updates c r1 r2);;
     _ ← update_challenge_status cid COMPLETED;
     finish_entry cid FIGHT_FINISHED;;
     cleanup_fight (ch_challenger_id c) (ch_opponent_id c))
    (end_fight_error cid fid).

(** [if current_metrics:] on the dict [get_fight_metrics] returned. *)
Definition metrics_truthy (cm : option (option Metrics * option Metrics)) : bool :=
  match cm with
  | Some (Some _, _) | Some (_, Some _) => true
  | _ => false
  end.

Definition initial_metrics : Metrics :=
  <["join_time" := PyNum 0]> (<["speak_time" := PyNum 0]>
    (<["volume_sum" := PyNum 0]> ∅)).

(** The [while fight_duration < max_duration] loop of [_monitor_fight],
    from iteration [i]; it returns the final [fight_duration] and the
    last metrics.  [fuel] bounds the iterations: [Z.to_nat max + 1]
    iterations are always enough when [monitoring_interval >= 1]. *)
Fixpoint sampling_loop (fuel : nat) (c : ChallengeRec) (fid : string)
    (i : nat) (fight_duration : Z) (m1 m2 : Metrics)
  : M (Z * Metrics * Metrics) :=
  match fuel with
  | O => mret (fight_duration, m1, m2)
  | S fuel' =>
      max_duration ← asks (fun e => max_fight_duration (env_config e));
      if decide (fight_duration < max_duration) then
        modify (set_iteration (Some i));;
        interval ← asks (fun e => monitoring_interval (env_config e));
        sleep interval;;
        let fight_duration := fight_duration + interval in
        current_metrics ← get_fight_metrics i;
        '(m1, m2) ←
          (if metrics_truthy current_metrics then
             let '(o1, o2) := default (None, None) current_metrics in
             let m1 := default m1 o1 in
             let m2 := default m2 o2 in
             _ ← update_fight_metrics fid (ch_challenger_id c) m1;
             _ ← update_fight_metrics fid (ch_opponent_id c) m2;
             mret (m1, m2)
           else mret (m1, m2));
        active ← are_participants_active i;
        if negb active then mret (fight_duration, m1, m2)
        else sampling_loop fuel' c fid (S i) fight_duration m1 m2
      else mret (fight_duration, m1, m2)
  end.

(** [_monitor_fight]; the state machine is the table's entry (no other
    task touches it while this one runs). *)
Definition monitor_fight (cid fid : string) : M unit :=
  try_except
    (challenge ← get_challenge cid;
     match challenge with
     | None => mret tt
     | Some c =>
         present ← has_entry cid;
         if (present : bool) then
           timeout ← asks (fun e => challenge_timeout (env_config e));
           sleep timeout;;
           participants_joined ← check_participants_joined;
           if negb (participants_joined : bool) then end_fight_no_show cid fid
           else
             _ ← transition_entry cid FIGHT_ACTIVE;
             _ ← start_recording fid
                   (bool_decide (ch_fight_type c = Some VOLUME));
             max_duration ← asks (fun e => max_fight_duration (env_config e));
             '(fight_duration, m1, m2) ←
               sampling_loop (S (Z.to_nat max_duration)) c fid 0 0
                 initial_metrics initial_metrics;
             modify (set_iteration None);;
             end_fight_with_results cid fid fight_duration m1 m2
               (ch_fight_type c)
         else mret tt
     end)
    (end_fight_error cid fid).

(** The keyword arguments [start_fight] passes to [Fight(...)]:
    there is no [ended_at]. *)
Definition start_fight_args (cid : string) (c : ChallengeRec) (now : Z)
  : FightArgs :=
  mkFightArgs (Some cid) (Some (ch_challenger_id c)) (Some (ch_opponent_id c))
    (Some (ch_fight_type c)) (Some 0) (Some WIN) (Some LOSS) (Some "")
    (Some now) None.

(** [start_fight]; scheduling the monitoring task records its handle in
    [self._fight_tasks] (the task itself runs as [monitor_fight]). *)
Definition start_fight (cid : string) : M bool :=
  try_except
    (challenge ← get_challenge cid;
     match challenge with
     | None => mret false
     | Some c =>
         present ← has_entry cid;
         ok ← (if (present : bool) then transition_entry cid PARTICIPANTS_JOINING
               else mret true);
         if negb (ok : bool) then mret false
         else
           now ← gets w_clock;
           fight ← lift_opt (Fight_validate (start_fight_args cid c now));
           fight_id ← create_fight fight;
           match fight_id with
           | None => mret false
           | Some _ =>
               modify (fun w => set_fight_tasks ({[cid]} ∪ w_fight_tasks w) w);;
               mret true
           end
     end)
    (mret false).

(** [cancel_challenge]; [task.cancel()] only requests the cancellation,
    which the task receives at its pending await. *)
Definition cancel_challenge (cid : string) : M bool :=
  try_except
    (modify (fun w => set_fight_tasks (w_fight_tasks w ∖ {[cid]}) w);;
     _ ← update_challenge_status cid CS_CANCELLED;
     finish_entry cid CANCELLED;;
     mret true)
    (mret false).

(** The monitoring task receives [CancelledError] at its [n]-th await
    because [cancel_challenge] runs: the task runs up to there (the
    error then propagates out of it), after which [cancel_challenge]
    completes. *)
Definition cancel_during_monitor (cid fid : string) (n : nat) : M bool :=
  fun e w =>
    let '(_, w1) := monitor_fight cid fid (with_cancel e (Some n)) w in
    cancel_challenge cid (with_cancel e None) w1.

(** The in-memory part of [expire_old_challenges]: the ids whose time in
    state exceeds [challenge_timeout * 3], in the dict's order ... *)
Definition expired_ids (now timeout : Z) (active : gmap string StateMachine)
  : list string :=
  (map_to_list active) ≫= (fun '(cid, sm) =>
    if decide (get_time_in_state now sm > timeout * 3) then [cid] else []).

(** ... then, for each of them, [transition_to(EXPIRED)] and [del]; the
    second component lists each discarded machine after its
    [transition_to] call. *)
Definition expire_step (now : Z)
    (acc : gmap string StateMachine * list (string * StateMachine))
    (cid : string) : gmap string StateMachine * list (string * StateMachine) :=
  let '(m, out) := acc in
  match m !! cid with
  | Some sm => (delete cid m, out ++ [(cid, (transition_to now sm EXPIRED).2)])
  | None => (m, out)   (* KeyError, unreachable: the ids are distinct *)
  end.

Definition expire_sweep (now timeout : Z) (active : gmap string StateMachine)
  : gmap string StateMachine * list (string * StateMachine) :=
  foldl (expire_step now) (active, []) (expired_ids now timeout active).

(** [expire_old_challenges] *)
Definition expire_old_challenges : M Z :=
  try_except
    (expired_count ← expire_db_challenges;
     timeout ← asks (fun e => challenge_timeout (env_config e));
     modify (fun w =>
       set_active (expire_sweep (w_clock w) timeout (w_active w)).1 w);;
     mret expired_count)
    (mret 0).

(** Counting the calls of one kind in a trace. *)
Definition is_stop_recording (ev : Event) : bool :=
  match ev with EvStopRecording _ => true | _ => false end.
Definition is_cleanup_fight (ev : Event) : bool :=
  match ev with EvCleanupFight _ _ => true | _ => false end.
Definition count_calls (p : Event -> bool) (t : list Event) : nat :=
  length (filter (fun ev => p ev = true) t).

(** The treatment the claim prescribes for bags: each metric the
    detector reads that is missing or non-numeric replaced by 0. *)
Definition metrics_missing_as_zero (m : Metrics) : Metrics :=
  foldr (fun k acc =>
           match acc !! k with
           | Some (PyNum _) => acc
           | _ => <[k := PyNum 0]> acc
           end)
        m ["total_join_time"; "speak_time"; "average_volume"].

(** Sample bags: the activity-contest example of the specification, and
    a bag with zero presence. *)
Definition bag_A : Metrics :=
  <["speak_time" := PyNum 30]> (<["total_join_time" := PyNum 60]>
    {["average_volume" := PyNum 5000]}).
Definition bag_B : Metrics :=
  <["speak_time" := PyNum 10]> (<["total_join_time" := PyNum 60]>
    {["average_volume" := PyNum 1000]}).
Definition bag_no_presence : Metrics :=
  <["total_join_time" := PyNum 0]> {["average_volume" := PyNum 5000]}.

(** A machine that has sat in ACCEPTED for 100 s (challenge_timeout 30). *)
Definition stale_accepted : gmap string StateMachine :=
  {["c1" := mkStateMachine ACCEPTED [(CREATED, 0); (SENT, 0); (ACCEPTED, 0)]]}.

Definition stale_world : World :=
  mkWorld stale_accepted ∅ ∅ ∅ ∅ (100 * 1000000) [] 0 None None.

Definition quiet_env (cfg : Config) : Env :=
  mkEnv cfg false (fun _ => None) (fun _ => false) None.

(** Sample manager data: challenge "c1" of user 1 against user 2 with
    contest type TIMING, its fight document "f1" as [start_fight] fills
    it in, its machine in PARTICIPANTS_JOINING, and the two users with
    empty statistics. *)
Definition cfg0 : Config := mkConfig 30 300 10 (1 # 10).
Definition ch0 : ChallengeRec := mkChallenge 1 2 (Some TIMING) PENDING 0.
Definition fi0 : FightRec := mkFight "c1" 1 2 TIMING 0 None WIN LOSS ∅ ∅ "" 0 0.
Definition sm_joining : StateMachine :=
  mkStateMachine PARTICIPANTS_JOINING
    [(CREATED, 0); (SENT, 0); (ACCEPTED, 0); (FIGHT_TYPE_SELECTED, 0);
     (PARTICIPANTS_JOINING, 0)].
Definition zero_stats : UserStats := mkUserStats 0 0 0 0.
Definition w0 : World :=
  mkWorld {["c1" := sm_joining]} ∅ {["c1" := ch0]} {["f1" := fi0]}
    (<[1 := zero_stats]> {[2 := zero_stats]}) 0 [] 0 None None.

(** The same challenge before [start_fight]: its machine in
    FIGHT_TYPE_SELECTED and no fight document yet. *)
Definition sm_selected : StateMachine :=
  mkStateMachine FIGHT_TYPE_SELECTED
    [(CREATED, 0); (SENT, 0); (ACCEPTED, 0); (FIGHT_TYPE_SELECTED, 0)].
Definition w_selected : World :=
  mkWorld {["c1" := sm_selected]} ∅ {["c1" := ch0]} ∅
    (<[1 := zero_stats]> {[2 := zero_stats]}) 0 [] 0 None None.

(** Metrics where participant 2 joined 3 s later: join_time and
    total_join_time 100 against 103. *)
Definition bag_t1 : Metrics :=
  <["join_time" := PyNum 100]> {["total_join_time" := PyNum 100]}.
Definition bag_t2 : Metrics :=
  <["join_time" := PyNum 103]> {["total_join_time" := PyNum 103]}.

(** Collaborators answering with [bag_t1]/[bag_t2] at every sample and
    reporting both participants active in the first two iterations. *)
Definition env0 (joined : bool) (cancel : option nat) : Env :=
  mkEnv cfg0 joined (fun _ => Some (Some bag_t1, Some bag_t2))
    (fun i => Nat.ltb i 2) cancel.

(* ------------------------------------------------------------------ *)
(** ** Relations between worlds used in the proofs *)

(** No stop-recording and no pool-release call was added to the trace. *)
Definition P_quiet (w w' : World) : Prop :=
  count_calls is_stop_recording (w_trace w') =
    count_calls is_stop_recording (w_trace w) /\
  count_calls is_cleanup_fight (w_trace w') =
    count_calls is_cleanup_fight (w_trace w).

(** Outside the sampling loop the ghost iteration stays unset, and a
    cancellation arriving there is recorded as [Some None]. *)
Definition P_iter (w w' : World) : Prop :=
  w_iteration w = None ->
  w_iteration w' = None /\
  (w_cancelled_at w' = w_cancelled_at w \/ w_cancelled_at w' = Some None).

Definition stats_le (u u' : UserStats) : Prop :=
  total_fights u <= total_fights u' /\ wins u <= wins u' /\
  losses u <= losses u' /\ draws u <= draws u'.

(** Every user keeps a document and no counter decreases. *)
Definition P_users (w w' : World) : Prop :=
  forall uid u, w_users w !! uid = Some u ->
    exists u', w_users w' !! uid = Some u' /\ stats_le u u'.

(** No pool-release call was added to the trace. *)
Definition P_no_release (w w' : World) : Prop :=
  count_calls is_cleanup_fight (w_trace w') =
    count_calls is_cleanup_fight (w_trace w).

(** What one collaborator call [m] logging [ev] does: it never raises
    [Exception]; either the task is cancelled there, or the call is
    logged and touches neither the ghost fields nor lowers a counter. *)
Definition prim_ok {A} (ev : Event) (m : M A) : Prop :=
  forall e w r w', m e w = (r, w') ->
    (r = Raise CancelledError /\
     w' = set_cancelled_at (Some (w_iteration w)) (log_event EvCancelled w)) \/
    (exists a, r = Ok a /\ w_trace w' = w_trace w ++ [ev] /\
       w_iteration w' = w_iteration w /\
       w_cancelled_at w' = w_cancelled_at w /\ P_users w w').

Definition preserves (P : World -> World -> Prop) {A} (m : M A) : Prop :=
  forall e w r w', m e w = (r, w') -> P w w'.

(** Only a cancellation changes the ghost cancellation field. *)
Definition keeps_cancel {A} (m : M A) : Prop :=
  forall e w r w', m e w = (r, w') -> r <> Raise CancelledError ->
    w_cancelled_at w' = w_cancelled_at w.

Definition no_pyexc {A} (m : M A) : Prop :=
  forall e w w', m e w <> (Raise PyException, w').

(** A run that starts outside the sampling loop with no cancellation
    delivered, and in which the cancellation arrives in a sampling
    iteration, ends by the [CancelledError] and adds no stop-recording
    and no pool-release call. *)
Definition cancel_quiet {A} (m : M A) : Prop :=
  forall e w r w' k, w_iteration w = None -> w_cancelled_at w = None ->
    m e w = (r, w') -> w_cancelled_at w' = Some (Some k) ->
    r = Raise CancelledError /\ P_quiet w w'.

(** A call that, with no cancellation pending, returns normally and
    leaves the fight and user documents as they were. *)
Definition runs_quiet {A} (m : M A) : Prop :=
  forall e w, env_cancel_at e = None ->
    exists a w', m e w = (Ok a, w') /\ w_fights w' = w_fights w /\
      w_users w' = w_users w.

(** The user documents after the [$inc] updates [l], in order; an update
    of a missing user matches no document. *)
Fixpoint apply_stats (us : gmap Z UserStats) (l : list (Z * UserStats))
  : gmap Z UserStats :=
  match l with
  | [] => us
  | (uid, d) :: l' =>
      apply_stats (match us !! uid with
                   | Some u => <[uid := add_stats u d]> us
                   | None => us
                   end) l'
  end.

(* ================================================================== *)
(** * The other functions of the same modules *)

(* ------------------------------------------------------------------ *)
(** ** ChallengeStateMachine: the remaining methods *)

(** The values of the [ChallengeState] members. *)
Definition state_value (s : ChallengeState) : string :=
  match s with
  | CREATED => "created"
  | SENT => "sent"
  | ACCEPTED => "accepted"
  | DECLINED => "declined"
  | FIGHT_TYPE_SELECTED => "fight_type_selected"
  | PARTICIPANTS_JOINING => "participants_joining"
  | FIGHT_ACTIVE => "fight_active"
  | FIGHT_FINISHED => "fight_finished"
  | EXPIRED => "expired"
  | CANCELLED => "cancelled"
  end.

(** The members in declaration order. *)
Definition all_states : list ChallengeState :=
  [CREATED; SENT; ACCEPTED; DECLINED; FIGHT_TYPE_SELECTED;
   PARTICIPANTS_JOINING; FIGHT_ACTIVE; FIGHT_FINISHED; EXPIRED; CANCELLED].

(** [ChallengeState(value)]: the member with that value; [None] is the
    [ValueError]. *)
Definition ChallengeState_of_value (v : string) : option ChallengeState :=
  head (filter (fun s => state_value s = v) all_states).

(** [ChallengeStateMachine.from_state_string(state_string)] at time [now]:
    [cls(state)], or [cls()] after the [ValueError]. *)
Definition from_state_string (state_string : string) (now : Z) : StateMachine :=
  match ChallengeState_of_value state_string with
  | Some state => new_state_machine state now
  | None => new_state_machine CREATED now
  end.

(** [is_active()] *)
Definition is_active (sm : StateMachine) : bool :=
  bool_decide (current_state sm ∈ [SENT; ACCEPTED; FIGHT_TYPE_SELECTED;
                                    PARTICIPANTS_JOINING; FIGHT_ACTIVE]).

(** [get_total_duration()]: whole seconds since the first history entry. *)
Definition get_total_duration (now : Z) (sm : StateMachine) : Z :=
  match head (state_history sm) with
  | None => 0
  | Some (_, t) => Z.quot (now - t) 1000000
  end.

(** Successive [transition_to] calls on one machine, each with the time
    [utcnow()] returns during it. *)
Fixpoint run_transitions (sm : StateMachine) (calls : list (Z * ChallengeState))
  : StateMachine :=
  match calls with
  | [] => sm
  | (now, t) :: calls' => run_transitions (transition_to now sm t).2 calls'
  end.

(** The position of a state on the longest path of [VALID_TRANSITIONS]
    (every allowed transition goes to a higher position). *)
Definition state_rank (s : ChallengeState) : nat :=
  match s with
  | CREATED => 0
  | SENT => 1
  | ACCEPTED => 2
  | FIGHT_TYPE_SELECTED => 3
  | PARTICIPANTS_JOINING => 4
  | FIGHT_ACTIVE => 5
  | DECLINED | FIGHT_FINISHED | EXPIRED | CANCELLED => 6
  end.

(* ------------------------------------------------------------------ *)
(** ** WinnerDetector: the remaining methods *)

Open Scope Q_scope.

(** Python's [min(a, b)] and [max(a, b)] on two numbers: the second
    argument only when it is strictly smaller (larger). *)
Definition py_min (a b : Q) : Q := if Qltb b a then b else a.
Definition py_max (a b : Q) : Q := if Qgtb b a then b else a.

(** The dict [analyze_fight_quality] returns on its normal path (its
    constant entry [total_participants = 2] is left out). *)
Record FightQuality := mkFightQuality {
  fight_quality : string;
  engagement_level : string;
  balance_rating : Q;
  notable_events : list string
}.

(** [analyze_fight_quality]; [None] is the dict
    [{'fight_quality': 'unknown', 'error': ...}] of the [except] branch.
    The scores cannot raise (they are caught in the score function);
    [min(...) / max(...)] raises [ZeroDivisionError] on a zero maximum and
    [metrics.get('speak_time', 0) > 60] raises on a non-numeric value. *)
Definition analyze_fight_quality (participant1_metrics participant2_metrics : Metrics)
  : option FightQuality :=
  let p1_score := calculate_activity_score participant1_metrics in
  let p2_score := calculate_activity_score participant2_metrics in
  let total_engagement := p1_score + p2_score in
  let '(engagement, quality) :=
    if Qgtb total_engagement (3 # 2) then ("high"%string, "excellent"%string)
    else if Qgtb total_engagement 1 then ("medium"%string, "good"%string)
    else ("low"%string, "fair"%string) in
  balance ←
    (if Qgtb (p1_score + p2_score) 0 then
       let hi := py_max p1_score p2_score in
       if Qeq_bool hi 0 then None
       else Some (py_min p1_score p2_score / hi)
     else Some (1 # 2));
  s1 ← num (py_get participant1_metrics "speak_time" (PyNum 0));
  let ev1 := if Qgtb s1 60 then ["Participant 1 spoke for over 1 minute"%string]
             else [] in
  s2 ← num (py_get participant2_metrics "speak_time" (PyNum 0));
  let ev2 := if Qgtb s2 60 then ["Participant 2 spoke for over 1 minute"%string]
             else [] in
  let ev3 := if Qgtb balance (4 # 5) then ["Very evenly matched fight"%string]
             else [] in
  Some (mkFightQuality quality engagement balance (ev1 ++ ev2 ++ ev3)).

(** [get_winner_confidence]; its body cannot raise. *)
Definition get_winner_confidence (winner_participant : option nat)
    (participant1_metrics participant2_metrics : Metrics) : Q :=
  match winner_participant with
  | None => 1 # 2
  | Some _ =>
      let p1_score := calculate_activity_score participant1_metrics in
      let p2_score := calculate_activity_score participant2_metrics in
      let total_score := p1_score + p2_score in
      if Qeq_bool total_score 0 then 1 # 2
      else
        let score_difference := Qabs (p1_score - p2_score) in
        py_min (score_difference / total_score * 2) 1
  end.

(** An outcome with the two participants exchanged. *)
Definition mirror_outcome (o : Outcome) : Outcome :=
  match o with
  | (Some 1%nat, WIN, LOSS) => (Some 2%nat, LOSS, WIN)
  | (Some 2%nat, LOSS, WIN) => (Some 1%nat, WIN, LOSS)
  | o => o
  end.

Open Scope Z_scope.

(* ------------------------------------------------------------------ *)
(** ** ChallengeOps and ChallengeManager: challenge creation *)

(** The filter of [ChallengeOps.get_pending_challenges(telegram_id)]. *)
Definition pending_for (now telegram_id : Z) (c : ChallengeRec) : Prop :=
  ch_opponent_id c = telegram_id /\ ch_status c = PENDING /\ now < ch_expires_at c.

Global Instance pending_for_dec now telegram_id c :
  Decision (pending_for now telegram_id c).
Proof. unfold pending_for. apply _. Defined.

(** [ChallengeOps.get_pending_challenges(telegram_id)] *)
Definition get_pending_challenges (telegram_id : Z) : M (list ChallengeRec) :=
  await_ (EvGetPending telegram_id) (fun _ w =>
    (filter (pending_for (w_clock w) telegram_id)
       (map snd (map_to_list (w_challenges w))), w)).

(** [ChallengeOps.create_challenge]: the document is inserted under a new
    ObjectId, one that no stored document has. *)
Definition ops_create_challenge (c : ChallengeRec) : M (option string) :=
  await_ EvCreateChallenge (fun _ w =>
    let cid := fresh (dom (w_challenges w)) in
    (Some cid, set_challenges (<[cid := c]> (w_challenges w)) w)).

(** [ChallengeManager.create_challenge(challenger_id, opponent_id, chat_id)];
    [chat_id] is only stored on the document, of which the model keeps
    the fields the manager reads. *)
Definition create_challenge (challenger_id opponent_id : Z) : M (option string) :=
  try_except
    (existing_challenges ← get_pending_challenges opponent_id;
     if bool_decide (Exists (fun c => ch_challenger_id c = challenger_id)
                       existing_challenges)
     then mret None
     else
       now ← gets w_clock;
       timeout ← asks (fun e => challenge_timeout (env_config e));
       let challenge := mkChallenge challenger_id opponent_id None PENDING
                          (now + timeout * 2 * 1000000) in
       challenge_id ← ops_create_challenge challenge;
       match challenge_id with
       | Some cid =>
           modify (fun w =>
             let state_machine := new_state_machine CREATED (w_clock w) in
             let '(_, state_machine) := transition_to (w_clock w) state_machine SENT in
             log_event (EvTransition cid CREATED SENT)
               (set_active (<[cid := state_machine]> (w_active w)) w));;
           mret (Some cid)
       | None => mret None
       end)
    (mret None).

(** [get_active_challenges_count()] and [is_challenge_active(cid)] *)
Definition get_active_challenges_count (w : World) : nat := size (w_active w).
Definition is_challenge_active (cid : string) (w : World) : bool :=
  bool_decide (cid ∈ dom (w_active w)).

(* ------------------------------------------------------------------ *)
(** ** The bot's callback handlers (bot/handlers.py) *)

(** [s.split(sep, 1)] before the first [sep]: the part before it and the
    rest, or [None] when [sep] does not occur. *)
Fixpoint break_at (sep : Ascii.ascii) (s : string) : option (string * string) :=
  match s with
  | EmptyString => None
  | String c s' =>
      if Ascii.eqb c sep then Some (EmptyString, s')
      else match break_at sep s' with
           | Some (p, r) => Some (String c p, r)
           | None => None
           end
  end.

(** Python's [s.split(sep, maxsplit)] for a one-character separator. *)
Fixpoint py_split (sep : Ascii.ascii) (maxsplit : nat) (s : string) : list string :=
  match maxsplit with
  | O => [s]
  | S k =>
      match break_at sep s with
      | None => [s]
      | Some (p, r) => p :: py_split sep k r
      end
  end.

(** What [callback_handler] calls for the callback data; [RouteError] is
    the [IndexError] of a missing part. *)
Inductive Route :=
  | Respond (challenge_id : string) (accepted : bool)
  | SelectType (challenge_id fight_type : string)
  | NoRoute
  | RouteError.

(** [callback_handler] in [setup_handlers] *)
Definition callback_handler (data : string) : Route :=
  if String.prefix "accept_" data then
    match py_split "_"%char 1 data !! 1%nat with
    | Some challenge_id => Respond challenge_id true
    | None => RouteError
    end
  else if String.prefix "decline_" data then
    match py_split "_"%char 1 data !! 1%nat with
    | Some challenge_id => Respond challenge_id false
    | None => RouteError
    end
  else if String.prefix "fight_type_" data then
    let parts := py_split "_"%char 2 data in
    match parts !! 2%nat with
    | None => RouteError
    | Some fight_type =>
        match (if Nat.ltb 2 (length parts) then parts !! 1%nat else parts !! 1%nat) with
        | None => RouteError
        | Some challenge_id => SelectType challenge_id fight_type
        end
    end
  else NoRoute.

(** The callback data of the buttons the handlers send. *)
Definition accept_data (challenge_id : string) : string := "accept_" +:+ challenge_id.
Definition decline_data (challenge_id : string) : string := "decline_" +:+ challenge_id.



(** The Telegram calls of [handle_challenge_response]. *)
Definition answer_callback (a : AnswerKind) : M unit :=
  await_ (EvAnswer a) (fun _ w => (tt, w)).
Definition edit_message_text (accepted : bool) : M unit :=
  await_ (EvEditMessage accepted) (fun _ w => (tt, w)).
Definition get_users (uid : Z) : M unit :=
  await_ (EvGetUsers uid) (fun _ w => (tt, w)).
Definition send_message (chat_id : Z) : M unit :=
  await_ (EvSendMessage chat_id) (fun _ w => (tt, w)).

(** [handle_challenge_response(client, callback_query, challenge_id,
    accepted)], [from_id] being [callback_query.from_user.id]. *)
Definition handle_challenge_response (challenge_id : string) (from_id : Z)
    (accepted : bool) : M unit :=
  challenge ← get_challenge challenge_id;
  match challenge with
  | None => answer_callback AnsNotFound
  | Some c =>
      if bool_decide (ch_opponent_id c <> from_id) then answer_callback AnsNotForYou
      else if bool_decide (ch_status c <> PENDING) then
        answer_callback AnsAlreadyResponded
      else if accepted then
        _ ← update_challenge_status challenge_id CS_ACCEPTED;
        edit_message_text true;;
        try_except
          (get_users (ch_challenger_id c);; send_message (ch_challenger_id c))
          (mret tt)
      else
        _ ← update_challenge_status challenge_id CS_DECLINED;
        edit_message_text false;;
        try_except (send_message (ch_challenger_id c)) (mret tt)
  end.

(* ------------------------------------------------------------------ *)
(** ** Notions used by the properties of this part *)

(** A challenge document with its status replaced. *)
Definition with_status (st : ChallengeStatus) (c : ChallengeRec) : ChallengeRec :=
  mkChallenge (ch_challenger_id c) (ch_opponent_id c) (ch_fight_type c) st (ch_expires_at c).

(** The documents, the fight tasks and the clock are unchanged, and so
    are the recording and cleanup calls. *)
Definition same_docs (w w' : World) : Prop :=
  w_challenges w' = w_challenges w /\ w_fights w' = w_fights w /\
  w_users w' = w_users w /\ w_fight_tasks w' = w_fight_tasks w /\
  w_clock w' = w_clock w /\ P_quiet w w'.

(** The history ends at the current state and each step is an edge of
    [VALID_TRANSITIONS]. *)
Definition hist_ok (sm : StateMachine) : Prop :=
  (exists t, last (state_history sm) = Some (current_state sm, t)) /\
  (forall i a ta b tb, state_history sm !! i = Some (a, ta) ->
     state_history sm !! S i = Some (b, tb) -> b ∈ VALID_TRANSITIONS a).

(** The states of the history have strictly increasing ranks, none above
    the current state's. *)
Definition rank_sorted (sm : StateMachine) : Prop :=
  StronglySorted (fun a b => state_rank a.1 < state_rank b.1)%nat (state_history sm) /\
  Forall (fun p => state_rank p.1 <= state_rank (current_state sm))%nat (state_history sm).

(** Sample data: a pending challenge "c1" of user 1 against user 2,
    expiring at 60 s, and no machine in the table. *)
Definition ch_pending : ChallengeRec := mkChallenge 1 2 None PENDING 60000000.
Definition w_pending : World :=
  mkWorld ∅ ∅ {["c1" := ch_pending]} ∅ ∅ 0 [] 0 None None.

(** Collaborators that report both participants active at every sample. *)
Definition env_all_active : Env :=
  mkEnv cfg0 true (fun _ => Some (Some bag_t1, Some bag_t2)) (fun _ => true) None.

(* ================================================================== *)
(** * Properties *)

(* ------------------------------------------------------------------ *)
(** ** State machine *)

Lemma VALID_TRANSITIONS_claimed (s t : ChallengeState) :
  t ∈ VALID_TRANSITIONS s <-> claimed_targets s t.
Proof.
  rewrite list_elem_of_In.
  destruct s, t; simpl; intuition congruence.
Qed.

(** C1: [transition_to t] succeeds exactly when [t] is an allowed target
    of the current state in the fixed table; a success moves to [t] and
    appends [(t, now)] to the history, a rejection leaves the current
    state and the history as they were. *)
Theorem transition_to_spec (now : Z) (sm : StateMachine) (t : ChallengeState) :
  let '(ok, sm') := transition_to now sm t in
  (ok = true <-> claimed_targets (current_state sm) t) /\
  (ok = true -> current_state sm' = t /\
                state_history sm' = state_history sm ++ [(t, now)]) /\
  (ok = false -> current_state sm' = current_state sm /\
                 state_history sm' = state_history sm).
Proof.
  unfold transition_to, can_transition_to.
  destruct (bool_decide (t ∈ VALID_TRANSITIONS (current_state sm))) eqn:Hd;
    simpl; rewrite <- VALID_TRANSITIONS_claimed.
  - apply bool_decide_eq_true in Hd.
    repeat split; intros; solve [congruence | auto].
  - apply bool_decide_eq_false in Hd.
    repeat split; intros; solve [congruence | tauto].
Qed.

(* ------------------------------------------------------------------ *)
(** ** Winner detection *)

Lemma Qltb_iff (a b : Q) : Qltb a b = true <-> (a < b)%Q.
Proof.
  unfold Qltb. rewrite negb_true_iff.
  split; intros H.
  - apply Qnot_le_lt. intros Hle. apply Qle_bool_iff in Hle. congruence.
  - destruct (Qle_bool b a) eqn:E; [|reflexivity].
    apply Qle_bool_iff in E. exfalso. apply (Qlt_not_le a b); assumption.
Qed.

Lemma Qgtb_iff (a b : Q) : Qgtb a b = true <-> (b < a)%Q.
Proof. exact (Qltb_iff b a). Qed.

Lemma Qltb_false (a b : Q) : Qltb a b = false -> (b <= a)%Q.
Proof.
  intros H. apply Qnot_lt_le. intros Hlt. apply Qltb_iff in Hlt. congruence.
Qed.

Lemma Qgtb_false (a b : Q) : Qgtb a b = false -> (a <= b)%Q.
Proof. exact (Qltb_false b a). Qed.

(** C3: the timing contest on presence durations [a] and [b] (the
    [total_join_time] entries) is a draw exactly when [|a - b| < 5];
    otherwise the larger duration wins, with WIN/LOSS accordingly.
    Durations (100, 103) give a draw and (100, 110) a win for
    participant 2. *)
Theorem timing_contest_spec (thr : Q) (p1 p2 : Metrics) (a b : Q)
  (H1 : p1 !! "total_join_time" = Some (PyNum a))
  (H2 : p2 !! "total_join_time" = Some (PyNum b)) :
  (determine_winner thr (Some TIMING) p1 p2 = draw_outcome <->
     (Qabs (a - b) < 5)%Q) /\
  ((5 <= Qabs (a - b))%Q -> (b < a)%Q ->
     determine_winner thr (Some TIMING) p1 p2 = (Some 1%nat, WIN, LOSS)) /\
  ((5 <= Qabs (a - b))%Q -> (a < b)%Q ->
     determine_winner thr (Some TIMING) p1 p2 = (Some 2%nat, LOSS, WIN)) /\
  determine_winner thr (Some TIMING) {["total_join_time" := PyNum 100]}
    {["total_join_time" := PyNum 103]} = draw_outcome /\
  determine_winner thr (Some TIMING) {["total_join_time" := PyNum 100]}
    {["total_join_time" := PyNum 110]} = (Some 2%nat, LOSS, WIN).
Proof.
  assert (Hrun : determine_winner thr (Some TIMING) p1 p2 =
    if Qltb (Qabs (a - b)) 5 then draw_outcome
    else if Qgtb a b then (Some 1%nat, WIN, LOSS) else (Some 2%nat, LOSS, WIN)).
  { unfold determine_winner, analyze_timing_fight, analyze_timing_fight_body,
      py_get. rewrite H1, H2. cbn [num mbind option_bind].
    destruct (Qltb (Qabs (a - b)) 5), (Qgtb a b); reflexivity. }
  split; [|split; [|split; [|split; reflexivity]]]; rewrite Hrun;
    destruct (Qltb (Qabs (a - b)) 5) eqn:E1;
    [apply Qltb_iff in E1 | apply Qltb_false in E1 |
     apply Qltb_iff in E1 | apply Qltb_false in E1 |
     apply Qltb_iff in E1 | apply Qltb_false in E1].
  - split; intros; [assumption | reflexivity].
  - split; [|intros; lra].
    destruct (Qgtb a b); discriminate.
  - intros; lra.
  - intros _ Hba. destruct (Qgtb a b) eqn:E2; [reflexivity|].
    apply Qgtb_false in E2. lra.
  - intros; lra.
  - intros _ Hab. destruct (Qgtb a b) eqn:E2; [|reflexivity].
    apply Qgtb_iff in E2. lra.
Qed.

Lemma timing_contest_spec_witness :
  ({["total_join_time" := PyNum 100]} : Metrics) !! "total_join_time"
    = Some (PyNum 100) /\
  ({["total_join_time" := PyNum 110]} : Metrics) !! "total_join_time"
    = Some (PyNum 110) /\
  (determine_winner (1#10) (Some TIMING) {["total_join_time" := PyNum 100]}
     {["total_join_time" := PyNum 110]} = draw_outcome <->
   (Qabs (100 - 110) < 5)%Q).
Proof.
  split; [reflexivity | split; [reflexivity |]].
  exact (proj1 (timing_contest_spec (1#10) {["total_join_time" := PyNum 100]}
           {["total_join_time" := PyNum 110]} 100 110 eq_refl eq_refl)).
Defined.

Lemma py_get_insert_eq (m : Metrics) (k : string) (v d : PyVal) :
  py_get (<[k := v]> m) k d = v.
Proof. unfold py_get. by rewrite lookup_insert_eq. Qed.

Lemma py_get_insert_ne (m : Metrics) (k k' : string) (v d : PyVal) :
  k <> k' -> py_get (<[k := v]> m) k' d = py_get m k' d.
Proof. intros H. unfold py_get. by rewrite lookup_insert_ne. Qed.

Lemma py_get_missing (m : Metrics) (k : string) (d : PyVal) :
  m !! k = None -> py_get m k d = d.
Proof. intros H. unfold py_get. by rewrite H. Qed.

(** C4, counterexample: with zero presence and a non-zero amplitude the
    score is 0.3 × 5000 / 10000 = 0.15, not 0. *)
Lemma activity_score_zero_presence_counterexample :
  (calculate_activity_score bag_no_presence == 3 # 20)%Q /\
  ~ (calculate_activity_score bag_no_presence == 0)%Q.
Proof. split; vm_compute; [reflexivity | discriminate]. Qed.

(** C4, as the code has it: for a bag with numeric [speak_time],
    [average_volume] and [total_join_time], the score is
    0.7 × speak_time / total_join_time + 0.3 × average_volume / 10000 when
    [total_join_time > 0], and only the amplitude term
    0.3 × average_volume / 10000 otherwise.  The example bags score 1/2
    and 11/75 (≈ 0.147), and participant 1 wins whenever the configured
    [volume_threshold] is at most their difference 53/150 (≈ 0.353). *)
Theorem activity_score_spec (m : Metrics) (st av tj : Q)
  (Hs : m !! "speak_time" = Some (PyNum st))
  (Ha : m !! "average_volume" = Some (PyNum av))
  (Ht : m !! "total_join_time" = Some (PyNum tj)) :
  ((0 < tj)%Q -> (calculate_activity_score m ==
                  (7 # 10) * (st / tj) + (3 # 10) * (av / 10000))%Q) /\
  ((tj <= 0)%Q -> (calculate_activity_score m == (3 # 10) * (av / 10000))%Q) /\
  (calculate_activity_score bag_A == 1 # 2)%Q /\
  (calculate_activity_score bag_B == 11 # 75)%Q /\
  (forall thr : Q, (thr <= 53 # 150)%Q ->
     determine_winner thr (Some VOLUME) bag_A bag_B = (Some 1%nat, WIN, LOSS)).
Proof.
  assert (Hrun : calculate_activity_score m =
    ((if Qgtb tj 0 then st / tj else 0) * (7 # 10)
     + av / 10000 * (3 # 10))%Q).
  { unfold calculate_activity_score, calculate_activity_score_body, py_get.
    rewrite Hs, Ha, Ht. cbn [num mbind option_bind].
    destruct (Qgtb tj 0); reflexivity. }
  split; [|split; [|split; [|split]]].
  - intros Hpos. rewrite Hrun. destruct (Qgtb tj 0) eqn:E.
    + ring.
    + apply Qgtb_false in E. lra.
  - intros Hle. rewrite Hrun. destruct (Qgtb tj 0) eqn:E.
    + apply Qgtb_iff in E. lra.
    + ring.
  - vm_compute. reflexivity.
  - vm_compute. reflexivity.
  - intros thr Hthr. unfold determine_winner, analyze_volume_fight.
    assert (Hd : (Qabs (calculate_activity_score bag_A
                        - calculate_activity_score bag_B) == 53 # 150)%Q)
      by (vm_compute; reflexivity).
    destruct (Qltb (Qabs (calculate_activity_score bag_A
                          - calculate_activity_score bag_B)) thr) eqn:E.
    + apply Qltb_iff in E. rewrite Hd in E. lra.
    + vm_compute. reflexivity.
Qed.

Lemma activity_score_spec_witness :
  bag_A !! "speak_time" = Some (PyNum 30) /\
  bag_A !! "average_volume" = Some (PyNum 5000) /\
  bag_A !! "total_join_time" = Some (PyNum 60) /\
  (calculate_activity_score bag_A ==
     (7 # 10) * (30 / 60) + (3 # 10) * (5000 / 10000))%Q.
Proof.
  split; [reflexivity | split; [reflexivity | split; [reflexivity |]]].
  apply (proj1 (activity_score_spec bag_A 30 5000 60 eq_refl eq_refl eq_refl)).
  reflexivity.
Defined.

(** C5, counterexample: a bag with [speak_time = 30] and no
    [total_join_time] against an empty bag is a win for participant 1
    (the missing presence counts as 1, score 21), while treating every
    missing metric as 0 gives two zero scores and a draw. *)
Lemma determine_winner_missing_metric_counterexample :
  determine_winner (1 # 10) (Some VOLUME) {["speak_time" := PyNum 30]} ∅
    = (Some 1%nat, WIN, LOSS) /\
  determine_winner (1 # 10) (Some VOLUME)
    (metrics_missing_as_zero {["speak_time" := PyNum 30]})
    (metrics_missing_as_zero ∅) = draw_outcome.
Proof. split; vm_compute; reflexivity. Qed.

Lemma analyze_timing_fight_consistent (p1 p2 : Metrics) :
  consistent_outcome (analyze_timing_fight p1 p2).
Proof.
  unfold consistent_outcome, analyze_timing_fight, analyze_timing_fight_body.
  destruct (num (py_get p1 "total_join_time" (PyNum 0))) as [a|];
    [|cbn; tauto].
  destruct (num (py_get p2 "total_join_time" (PyNum 0))) as [b|];
    [|cbn; tauto].
  cbn [mbind option_bind].
  destruct (Qltb (Qabs (a - b)) 5); [tauto|].
  destruct (Qgtb a b); tauto.
Qed.

Lemma analyze_volume_fight_consistent (thr : Q) (p1 p2 : Metrics) :
  consistent_outcome (analyze_volume_fight thr p1 p2).
Proof.
  unfold consistent_outcome, analyze_volume_fight.
  destruct (Qltb _ thr); [tauto|].
  destruct (Qgtb _ _); tauto.
Qed.

(** C5, as the code has it: [determine_winner] is total (every failure
    inside is caught) and returns one of the three consistent outcomes;
    an unrecognised contest type gives (None, DRAW, DRAW).  A missing
    metric defaults to 0, except a missing [total_join_time] in the
    activity score, which defaults to 1; a non-numeric [total_join_time]
    of either bag makes the timing contest a draw and the activity score of
    its bag 0, as does a non-numeric [average_volume], or a non-numeric
    [speak_time] when [total_join_time] is positive. *)
Theorem determine_winner_outcomes (thr : Q) (ft : option FightType)
    (p1 p2 : Metrics) :
  consistent_outcome (determine_winner thr ft p1 p2) /\
  (ft = None -> determine_winner thr ft p1 p2 = draw_outcome) /\
  (p1 !! "total_join_time" = None ->
     analyze_timing_fight p1 p2 =
     analyze_timing_fight (<["total_join_time" := PyNum 0]> p1) p2) /\
  (p2 !! "total_join_time" = None ->
     analyze_timing_fight p1 p2 =
     analyze_timing_fight p1 (<["total_join_time" := PyNum 0]> p2)) /\
  (forall (m : Metrics) (k : string),
     k = "speak_time" \/ k = "average_volume" -> m !! k = None ->
     calculate_activity_score m = calculate_activity_score (<[k := PyNum 0]> m)) /\
  (forall m : Metrics, m !! "total_join_time" = None ->
     calculate_activity_score m =
     calculate_activity_score (<["total_join_time" := PyNum 1]> m)) /\
  (p1 !! "total_join_time" = Some PyBad ->
     determine_winner thr (Some TIMING) p1 p2 = draw_outcome) /\
  (forall m : Metrics, m !! "total_join_time" = Some PyBad ->
     calculate_activity_score m = 0%Q) /\
  (p2 !! "total_join_time" = Some PyBad ->
     determine_winner thr (Some TIMING) p1 p2 = draw_outcome) /\
  (forall m : Metrics, m !! "average_volume" = Some PyBad ->
     calculate_activity_score m = 0%Q) /\
  (forall (m : Metrics) (tj : Q), py_get m "total_join_time" (PyNum 1) = PyNum tj ->
     (0 < tj)%Q -> m !! "speak_time" = Some PyBad ->
     calculate_activity_score m = 0%Q).
Proof.
  split; [|split; [|split; [|split; [|split; [|split; [|split; [|split; [|split; [|split]]]]]]]]].
  - destruct ft as [[|]|]; simpl.
    + apply analyze_timing_fight_consistent.
    + apply analyze_volume_fight_consistent.
    + unfold consistent_outcome. tauto.
  - intros ->. reflexivity.
  - intros H. unfold analyze_timing_fight, analyze_timing_fight_body.
    rewrite py_get_insert_eq, (py_get_missing _ _ _ H). reflexivity.
  - intros H. unfold analyze_timing_fight, analyze_timing_fight_body.
    rewrite py_get_insert_eq, (py_get_missing _ _ _ H). reflexivity.
  - intros m k Hk H. unfold calculate_activity_score,
      calculate_activity_score_body.
    destruct Hk as [-> | ->].
    + rewrite py_get_insert_eq, (py_get_missing _ _ _ H).
      rewrite !py_get_insert_ne by discriminate. reflexivity.
    + rewrite py_get_insert_eq, (py_get_missing _ _ _ H).
      rewrite !py_get_insert_ne by discriminate. reflexivity.
  - intros m H. unfold calculate_activity_score,
      calculate_activity_score_body.
    rewrite py_get_insert_eq, (py_get_missing _ _ _ H).
    rewrite !py_get_insert_ne by discriminate. reflexivity.
  - intros H. unfold determine_winner, analyze_timing_fight,
      analyze_timing_fight_body, py_get. rewrite H. reflexivity.
  - intros m H. unfold calculate_activity_score,
      calculate_activity_score_body, py_get at 3. rewrite H. reflexivity.
  - intros H. unfold determine_winner, analyze_timing_fight,
      analyze_timing_fight_body.
    destruct (num (py_get p1 "total_join_time" (PyNum 0))); [|reflexivity].
    cbn [mbind option_bind]. unfold py_get. rewrite H. reflexivity.
  - intros m H.
    assert (Ha : py_get m "average_volume" (PyNum 0) = PyBad)
      by (unfold py_get; rewrite H; reflexivity).
    unfold calculate_activity_score, calculate_activity_score_body.
    cbv zeta. rewrite Ha.
    destruct (num (py_get m "total_join_time" (PyNum 1))) as [tj|]; [|reflexivity].
    cbn [mbind option_bind].
    destruct (Qgtb tj 0); [destruct (num (py_get m "speak_time" (PyNum 0)))|];
      reflexivity.
  - intros m tj Htj Hpos H. unfold calculate_activity_score, calculate_activity_score_body.
    cbv zeta. rewrite Htj. cbn [num mbind option_bind].
    assert (Hg : Qgtb tj 0 = true) by (apply Qgtb_iff; exact Hpos).
    assert (Hs : py_get m "speak_time" (PyNum 0) = PyBad)
      by (unfold py_get; rewrite H; reflexivity).
    rewrite Hg, Hs. reflexivity.
Qed.

(* ------------------------------------------------------------------ *)
(** ** The expiry sweep *)

Lemma expire_fold (now : Z) (l : list string) :
  forall (m : gmap string StateMachine) (out : list (string * StateMachine)),
  (forall k, (foldl (expire_step now) (m, out) l).1 !! k =
             if decide (k ∈ l) then None else m !! k) /\
  (forall x, x ∈ out -> x ∈ (foldl (expire_step now) (m, out) l).2) /\
  (forall k sm, k ∈ l -> m !! k = Some sm ->
     (k, (transition_to now sm EXPIRED).2) ∈ (foldl (expire_step now) (m, out) l).2).
Proof.
  induction l as [|k0 l IH]; intros m out; cbn [foldl expire_step].
  - split; [|split].
    + intros k. rewrite decide_False; [reflexivity|]. apply not_elem_of_nil.
    + tauto.
    + intros k sm Hk. apply not_elem_of_nil in Hk. contradiction.
  - destruct (m !! k0) as [sm0|] eqn:E0.
    + destruct (IH (delete k0 m) (out ++ [(k0, (transition_to now sm0 EXPIRED).2)]))
        as (IH1 & IH2 & IH3).
      split; [|split].
      * intros k. rewrite IH1.
        destruct (decide (k ∈ l)) as [Hl|Hl].
        -- rewrite decide_True; [reflexivity|]. by apply elem_of_cons; right.
        -- destruct (decide (k = k0)) as [->|Hne].
           ++ rewrite decide_True by (apply elem_of_cons; left; reflexivity).
              apply lookup_delete_eq.
           ++ rewrite decide_False.
              ** by rewrite lookup_delete_ne by congruence.
              ** intros Hin. apply elem_of_cons in Hin. tauto.
      * intros x Hx. apply IH2. apply elem_of_app. by left.
      * intros k sm Hk Hsm. destruct (decide (k = k0)) as [->|Hne].
        -- rewrite E0 in Hsm. injection Hsm as <-.
           apply IH2. apply elem_of_app. right. by apply list_elem_of_singleton.
        -- apply elem_of_cons in Hk as [Hk|Hk]; [congruence|].
           apply IH3; [assumption|]. by rewrite lookup_delete_ne by congruence.
    + destruct (IH m out) as (IH1 & IH2 & IH3).
      split; [|split].
      * intros k. rewrite IH1.
        destruct (decide (k ∈ l)) as [Hl|Hl].
        -- rewrite decide_True; [reflexivity|]. by apply elem_of_cons; right.
        -- destruct (decide (k = k0)) as [->|Hne].
           ++ rewrite decide_True by (apply elem_of_cons; left; reflexivity).
              exact E0.
           ++ rewrite decide_False; [reflexivity|].
              intros Hin. apply elem_of_cons in Hin. tauto.
      * exact IH2.
      * intros k sm Hk Hsm. destruct (decide (k = k0)) as [->|Hne].
        -- congruence.
        -- apply elem_of_cons in Hk as [Hk|Hk]; [congruence|].
           by apply IH3.
Qed.

Lemma elem_of_expired_ids (now timeout : Z) (active : gmap string StateMachine)
    (k : string) :
  k ∈ expired_ids now timeout active <->
  exists sm, active !! k = Some sm /\ get_time_in_state now sm > timeout * 3.
Proof.
  unfold expired_ids. rewrite list_elem_of_bind. split.
  - intros ([cid sm] & Hk & Hin). apply elem_of_map_to_list in Hin.
    destruct (decide _) as [Hd|Hd].
    + apply list_elem_of_singleton in Hk as ->. eauto.
    + apply not_elem_of_nil in Hk. contradiction.
  - intros (sm & Hsm & Hd). exists (k, sm). split.
    + rewrite decide_True by assumption. by apply list_elem_of_singleton.
    + by apply elem_of_map_to_list.
Qed.

Lemma expire_old_challenges_active (e : Env) (w : World) :
  env_cancel_at e = None ->
  w_active (expire_old_challenges e w).2 =
  (expire_sweep (w_clock w) (challenge_timeout (env_config e)) (w_active w)).1.
Proof.
  intros Hc. destruct e as [cfg j mt ac ca]; cbn in Hc; subst ca.
  reflexivity.
Qed.

(** C8, counterexample: a challenge that has sat in ACCEPTED for 100 s
    with [challenge_timeout = 30] is removed by the sweep, but the table
    has no ACCEPTED -> EXPIRED edge, so its machine stays in ACCEPTED. *)
Lemma expire_sweep_accepted_counterexample :
  (expire_sweep (100 * 1000000) 30 stale_accepted).1 = ∅ /\
  map (fun p => current_state p.2)
      (expire_sweep (100 * 1000000) 30 stale_accepted).2 = [ACCEPTED].
Proof. split; vm_compute; reflexivity. Qed.

(** C8, as the code has it: every in-memory challenge whose whole-second
    time in its current state exceeds [3 × challenge_timeout] is removed
    from the active table by [expire_old_challenges]; its machine is sent
    [transition_to(EXPIRED)], which reaches EXPIRED only from SENT and
    PARTICIPANTS_JOINING and leaves any other state unchanged.  Entries
    that have not been in their state that long are kept as they are. *)
Theorem expire_old_challenges_spec (e : Env) (w : World) (cid : string)
    (sm : StateMachine)
    (Hc : env_cancel_at e = None) (Hsm : w_active w !! cid = Some sm) :
  let T := challenge_timeout (env_config e) in
  let now := w_clock w in
  (get_time_in_state now sm > T * 3 ->
     w_active (expire_old_challenges e w).2 !! cid = None /\
     (cid, (transition_to now sm EXPIRED).2) ∈ (expire_sweep now T (w_active w)).2 /\
     current_state (transition_to now sm EXPIRED).2 =
       (if decide (current_state sm = SENT \/ current_state sm = PARTICIPANTS_JOINING)
        then EXPIRED else current_state sm)) /\
  (get_time_in_state now sm <= T * 3 ->
     w_active (expire_old_challenges e w).2 !! cid = Some sm).
Proof.
  intros T now. rewrite expire_old_challenges_active by exact Hc.
  unfold expire_sweep.
  destruct (expire_fold now (expired_ids now T (w_active w)) (w_active w) [])
    as (H1 & _ & H3).
  split.
  - intros Hd.
    assert (Hin : cid ∈ expired_ids now T (w_active w))
      by (apply elem_of_expired_ids; eauto).
    split; [|split].
    + rewrite H1. by rewrite decide_True.
    + by apply H3.
    + unfold transition_to, can_transition_to.
      destruct sm as [s h]; destruct s; vm_compute; reflexivity.
  - intros Hd. rewrite H1. rewrite decide_False; [exact Hsm|].
    intros Hin. apply elem_of_expired_ids in Hin as (sm' & Hsm' & Hd').
    rewrite Hsm in Hsm'. injection Hsm' as <-. lia.
Qed.

Lemma expire_old_challenges_spec_witness :
  env_cancel_at (quiet_env (mkConfig 30 300 10 (1 # 10))) = None /\
  w_active stale_world !! "c1" = stale_accepted !! "c1" /\
  w_active (expire_old_challenges (quiet_env (mkConfig 30 300 10 (1 # 10)))
              stale_world).2 !! "c1" = None.
Proof.
  split; [reflexivity | split; [reflexivity |]].
  apply (proj1 (expire_old_challenges_spec
                  (quiet_env (mkConfig 30 300 10 (1 # 10))) stale_world "c1"
                  (mkStateMachine ACCEPTED [(CREATED, 0); (SENT, 0); (ACCEPTED, 0)])
                  eq_refl eq_refl)).
  vm_compute. reflexivity.
Defined.

(* ------------------------------------------------------------------ *)
(** ** Running the task monad *)

Lemma bind_run {A B} (m : M A) (f : A -> M B) e w :
  (m ≫= f) e w =
  match m e w with
  | (Ok a, w') => f a e w'
  | (Raise x, w') => (Raise x, w')
  end.
Proof. reflexivity. Qed.

Lemma bind_ok {A B} (m : M A) (f : A -> M B) e w a w1 :
  m e w = (Ok a, w1) -> (m ≫= f) e w = f a e w1.
Proof. intros H. rewrite bind_run, H. reflexivity. Qed.

Lemma bind_raise {A B} (m : M A) (f : A -> M B) e w x w1 :
  m e w = (Raise x, w1) -> (m ≫= f) e w = (Raise x, w1).
Proof. intros H. rewrite bind_run, H. reflexivity. Qed.

(** An await with no cancellation pending performs the call. *)
Lemma await_run {A} ev (eff : Env -> World -> A * World) e w :
  env_cancel_at e = None ->
  await_ ev eff e w =
  (Ok (eff e (log_event ev (bump_awaits w))).1,
   (eff e (log_event ev (bump_awaits w))).2).
Proof.
  intros Hc. unfold await_, cancel_now. rewrite Hc.
  destruct (eff _ _); reflexivity.
Qed.

Lemma try_except_ok {A} (m h : M A) e w a w1 :
  m e w = (Ok a, w1) -> try_except m h e w = (Ok a, w1).
Proof. unfold try_except. intros ->. reflexivity. Qed.

Lemma transition_to_accepts (now : Z) (s : ChallengeState) h t :
  t ∈ VALID_TRANSITIONS s ->
  transition_to now (mkStateMachine s h) t = (true, mkStateMachine t (h ++ [(t, now)])).
Proof.
  intros Ht. unfold transition_to, can_transition_to; cbn.
  rewrite bool_decide_true by exact Ht. reflexivity.
Qed.

Lemma transition_to_rejects (now : Z) (sm : StateMachine) t :
  t ∉ VALID_TRANSITIONS (current_state sm) -> transition_to now sm t = (false, sm).
Proof.
  intros Ht. unfold transition_to, can_transition_to.
  rewrite bool_decide_false by exact Ht. reflexivity.
Qed.

(* ------------------------------------------------------------------ *)
(** ** Invariants of the manager's routines *)

Global Instance P_quiet_preorder : PreOrder P_quiet.
Proof.
  split.
  - intros w. split; reflexivity.
  - intros w1 w2 w3 [H1 H2] [H3 H4]. split; congruence.
Qed.

Global Instance P_iter_preorder : PreOrder P_iter.
Proof.
  split.
  - intros w H. split; [exact H | left; reflexivity].
  - intros w1 w2 w3 H12 H23 H. destruct (H12 H) as [H2 C2].
    destruct (H23 H2) as [H3 C3]. split; [exact H3|].
    destruct C2 as [C2|C2], C3 as [C3|C3]; rewrite ?C3, ?C2; auto.
Qed.

Global Instance P_users_preorder : PreOrder P_users.
Proof.
  split.
  - intros w uid u H. exists u. split; [exact H|]. unfold stats_le; lia.
  - intros w1 w2 w3 H12 H23 uid u H.
    destruct (H12 uid u H) as (u2 & H2 & L2).
    destruct (H23 uid u2 H2) as (u3 & H3 & L3).
    exists u3. split; [exact H3|]. unfold stats_le in *; lia.
Qed.

Section Preserves.
  Context (P : World -> World -> Prop) `{!PreOrder P}.

Lemma pres_ret {A} (a : A) : preserves P (mret a).
  Proof. intros e w r w' H. injection H as _ <-. reflexivity. Qed.

Lemma pres_bind {A B} (m : M A) (f : A -> M B) :
    preserves P m -> (forall a, preserves P (f a)) -> preserves P (m ≫= f).
  Proof.
    intros Hm Hf e w r w' H. rewrite bind_run in H.
    destruct (m e w) as [[a|x] w1] eqn:E.
    - etrans; [eapply Hm, E | eapply Hf, H].
    - injection H as _ <-. eapply Hm, E.
  Qed.

Lemma pres_try {A} (m h : M A) :
    preserves P m -> preserves P h -> preserves P (try_except m h).
  Proof.
    intros Hm Hh e w r w' H. unfold try_except in H.
    destruct (m e w) as [[a|[|]] w1] eqn:E.
    - injection H as _ <-. eapply Hm, E.
    - etrans; [eapply Hm, E | eapply Hh, H].
    - injection H as _ <-. eapply Hm, E.
  Qed.

Lemma pres_raise {A} (x : exn) : preserves P (@raise A x).
  Proof. intros e w r w' H. injection H as _ <-. reflexivity. Qed.

Lemma pres_lift_opt {A} (o : option A) : preserves P (lift_opt o).
  Proof. destruct o; [apply pres_ret | apply pres_raise]. Qed.

Lemma pres_gets {A} (f : World -> A) : preserves P (gets f).
  Proof. intros e w r w' H. injection H as _ <-. reflexivity. Qed.

Lemma pres_asks {A} (f : Env -> A) : preserves P (asks f).
  Proof. intros e w r w' H. injection H as _ <-. reflexivity. Qed.

Lemma pres_modify (f : World -> World) :
    (forall w, P w (f w)) -> preserves P (modify f).
  Proof. intros Hf e w r w' H. injection H as _ <-. apply Hf. Qed.

Lemma pres_mapM_ {A} (f : A -> M unit) (l : list A) :
    (forall x, x ∈ l -> preserves P (f x)) -> preserves P (mapM_ f l).
  Proof.
    induction l as [|x l IH]; intros Hf; simpl.
    - apply pres_ret.
    - apply pres_bind; [apply Hf; left | intros _; apply IH].
      intros y Hy. apply Hf. by right.
  Qed.
End Preserves.

Lemma kc_ret {A} (a : A) : keeps_cancel (mret a).
Proof. intros e w r w' H _. by injection H as _ <-. Qed.

Lemma kc_bind {A B} (m : M A) (f : A -> M B) :
  keeps_cancel m -> (forall a, keeps_cancel (f a)) -> keeps_cancel (m ≫= f).
Proof.
  intros Hm Hf e w r w' H Hr. rewrite bind_run in H.
  destruct (m e w) as [[a|x] w1] eqn:E.
  - rewrite (Hf a e w1 r w' H Hr). eapply Hm; [exact E | discriminate].
  - injection H as <- <-. eapply Hm; [exact E | congruence].
Qed.

Lemma kc_try {A} (m h : M A) :
  keeps_cancel m -> keeps_cancel h -> keeps_cancel (try_except m h).
Proof.
  intros Hm Hh e w r w' H Hr. unfold try_except in H.
  destruct (m e w) as [[a|[|]] w1] eqn:E.
  - injection H as <- <-. eapply Hm; [exact E | exact Hr].
  - rewrite (Hh e w1 r w' H Hr). eapply Hm; [exact E | discriminate].
  - injection H as <- <-. exfalso. by apply Hr.
Qed.

Lemma kc_raise {A} (x : exn) : keeps_cancel (@raise A x).
Proof. intros e w r w' H _. by injection H as _ <-. Qed.

Lemma kc_lift_opt {A} (o : option A) : keeps_cancel (lift_opt o).
Proof. destruct o; [apply kc_ret | apply kc_raise]. Qed.

Lemma kc_gets {A} (f : World -> A) : keeps_cancel (gets f).
Proof. intros e w r w' H _. by injection H as _ <-. Qed.

Lemma kc_asks {A} (f : Env -> A) : keeps_cancel (asks f).
Proof. intros e w r w' H _. by injection H as _ <-. Qed.

Lemma kc_modify (f : World -> World) :
  (forall w, w_cancelled_at (f w) = w_cancelled_at w) -> keeps_cancel (modify f).
Proof. intros Hf e w r w' H _. injection H as _ <-. apply Hf. Qed.

Lemma kc_mapM_ {A} (f : A -> M unit) (l : list A) :
  (forall x, x ∈ l -> keeps_cancel (f x)) -> keeps_cancel (mapM_ f l).
Proof.
  induction l as [|x l IH]; intros Hf; simpl.
  - apply kc_ret.
  - apply kc_bind; [apply Hf; left | intros _; apply IH].
    intros y Hy. apply Hf. by right.
Qed.

Lemma np_ret {A} (a : A) : no_pyexc (mret a).
Proof. intros e w w' H. discriminate H. Qed.

Lemma np_bind {A B} (m : M A) (f : A -> M B) :
  no_pyexc m -> (forall a, no_pyexc (f a)) -> no_pyexc (m ≫= f).
Proof.
  intros Hm Hf e w w' H. rewrite bind_run in H.
  destruct (m e w) as [[a|x] w1] eqn:E.
  - eapply Hf, H.
  - injection H as -> ->. eapply Hm, E.
Qed.

(** [except Exception] with a handler that does not raise. *)
Lemma np_try {A} (m h : M A) : no_pyexc h -> no_pyexc (try_except m h).
Proof.
  intros Hh e w w' H. unfold try_except in H.
  destruct (m e w) as [[a|[|]] w1] eqn:E; try discriminate.
  eapply Hh, H.
Qed.

Lemma np_gets {A} (f : World -> A) : no_pyexc (gets f).
Proof. intros e w w' H. discriminate H. Qed.

Lemma np_asks {A} (f : Env -> A) : no_pyexc (asks f).
Proof. intros e w w' H. discriminate H. Qed.

Lemma np_modify (f : World -> World) : no_pyexc (modify f).
Proof. intros e w w' H. discriminate H. Qed.

Lemma np_mapM_ {A} (f : A -> M unit) (l : list A) :
  (forall x, x ∈ l -> no_pyexc (f x)) -> no_pyexc (mapM_ f l).
Proof.
  induction l as [|x l IH]; intros Hf; simpl.
  - apply np_ret.
  - apply np_bind; [apply Hf; left | intros _; apply IH].
    intros y Hy. apply Hf. by right.
Qed.

Lemma P_users_same (w w' : World) : w_users w' = w_users w -> P_users w w'.
Proof. intros Hu. unfold P_users. rewrite Hu. intros uid u H. exists u. split; [exact H|]. unfold stats_le; lia. Qed.

Lemma count_calls_snoc (p : Event -> bool) t ev :
  count_calls p (t ++ [ev]) = (count_calls p t + if p ev then 1 else 0)%nat.
Proof.
  unfold count_calls. rewrite filter_app, length_app, filter_cons, filter_nil.
  destruct (p ev); case_decide; cbn; try congruence; lia.
Qed.

Lemma prim_ok_await {A} ev (eff : Env -> World -> A * World) :
  (forall e w, w_trace (eff e w).2 = w_trace w /\
     w_iteration (eff e w).2 = w_iteration w /\
     w_cancelled_at (eff e w).2 = w_cancelled_at w /\ P_users w (eff e w).2) ->
  prim_ok ev (await_ ev eff).
Proof.
  intros Heff e w r w' H. unfold await_ in H. destruct (cancel_now e w).
  - left. injection H as <- <-. auto.
  - right. destruct (Heff e (log_event ev (bump_awaits w))) as (T & I & C & U).
    destruct (eff e (log_event ev (bump_awaits w))) as [a w1].
    injection H as <- <-. cbn in *.
    exists a. split; [reflexivity|]. split; [exact T|]. split; [exact I|].
    split; [exact C|]. etrans; [|exact U]. by apply P_users_same.
Qed.

Ltac prim_tac :=
  intros; apply prim_ok_await; intros ??; cbn;
  repeat case_match; cbn; (split; [reflexivity|]); (split; [reflexivity|]);
  (split; [reflexivity|]); apply P_users_same; reflexivity.

Lemma sleep_ok s : prim_ok (EvSleep s) (sleep s).
Proof. prim_tac. Qed.
Lemma get_challenge_ok cid : prim_ok (EvGetChallenge cid) (get_challenge cid).
Proof. prim_tac. Qed.
Lemma check_participants_joined_ok : prim_ok EvCheckJoined check_participants_joined.
Proof. prim_tac. Qed.
Lemma start_recording_ok fid v : prim_ok (EvStartRecording fid v) (start_recording fid v).
Proof. prim_tac. Qed.
Lemma stop_recording_ok fid : prim_ok (EvStopRecording fid) (stop_recording fid).
Proof. prim_tac. Qed.
Lemma get_fight_metrics_ok i : prim_ok EvGetMetrics (get_fight_metrics i).
Proof. prim_tac. Qed.
Lemma are_participants_active_ok i : prim_ok EvAreActive (are_participants_active i).
Proof. prim_tac. Qed.
Lemma update_fight_metrics_ok fid pid m :
  prim_ok (EvUpdateMetrics fid pid) (update_fight_metrics fid pid m).
Proof. prim_tac. Qed.
Lemma create_fight_ok f : prim_ok EvCreateFight (create_fight f).
Proof. prim_tac. Qed.
Lemma finish_fight_ok fid wid r1 r2 :
  prim_ok (EvFinishFight fid wid r1 r2) (finish_fight fid wid r1 r2).
Proof. prim_tac. Qed.
Lemma update_challenge_status_ok cid st :
  prim_ok (EvUpdateStatus cid st) (update_challenge_status cid st).
Proof. prim_tac. Qed.
Lemma cleanup_fight_ok p1 p2 : prim_ok (EvCleanupFight p1 p2) (cleanup_fight p1 p2).
Proof. prim_tac. Qed.
Lemma expire_db_challenges_ok : prim_ok EvExpireDb expire_db_challenges.
Proof. prim_tac. Qed.

Lemma update_user_stats_ok uid d :
  0 <= total_fights d -> 0 <= wins d -> 0 <= losses d -> 0 <= draws d ->
  prim_ok (EvUpdateUserStats uid d) (update_user_stats uid d).
Proof.
  intros H1 H2 H3 H4. apply prim_ok_await. intros e w. cbn.
  destruct (w_users w !! uid) as [u|] eqn:Hu; cbn;
    (split; [reflexivity|]); (split; [reflexivity|]); (split; [reflexivity|]).
  - intros uid' u' Hu'. destruct (decide (uid' = uid)) as [->|Hne].
    + rewrite Hu in Hu'. injection Hu' as <-. eexists. split; [apply lookup_insert_eq|].
      unfold stats_le, add_stats; cbn. lia.
    + exists u'. cbn. rewrite lookup_insert_ne by congruence.
      split; [exact Hu'|]. unfold stats_le; lia.
  - by apply P_users_same.
Qed.

Lemma prim_quiet {A} ev (m : M A) :
  prim_ok ev m -> is_stop_recording ev = false -> is_cleanup_fight ev = false ->
  preserves P_quiet m.
Proof.
  intros Hm Hs Hl e w r w' H.
  destruct (Hm e w r w' H) as [[_ ->] | (a & _ & T & _)]; unfold P_quiet.
  - cbn [w_trace set_cancelled_at log_event]. rewrite !count_calls_snoc.
    cbn. split; lia.
  - rewrite T, !count_calls_snoc, Hs, Hl. split; lia.
Qed.

Lemma prim_no_release {A} ev (m : M A) :
  prim_ok ev m -> is_cleanup_fight ev = false -> preserves P_no_release m.
Proof.
  intros Hm Hl e w r w' H.
  destruct (Hm e w r w' H) as [[_ ->] | (a & _ & T & _)]; unfold P_no_release.
  - cbn [w_trace set_cancelled_at log_event]. rewrite !count_calls_snoc. cbn. lia.
  - rewrite T, !count_calls_snoc, Hl. lia.
Qed.

Global Instance P_no_release_preorder : PreOrder P_no_release.
Proof.
  split.
  - intros w. reflexivity.
  - intros w1 w2 w3 H1 H2. unfold P_no_release in *. congruence.
Qed.

Lemma prim_iter {A} ev (m : M A) : prim_ok ev m -> preserves P_iter m.
Proof.
  intros Hm e w r w' H Hi.
  destruct (Hm e w r w' H) as [[_ ->] | (a & _ & _ & I & C & _)]; cbn.
  - rewrite Hi. auto.
  - rewrite I, C. auto.
Qed.

Lemma prim_users {A} ev (m : M A) : prim_ok ev m -> preserves P_users m.
Proof.
  intros Hm e w r w' H.
  destruct (Hm e w r w' H) as [[_ ->] | (a & _ & _ & _ & _ & U)].
  - by apply P_users_same.
  - exact U.
Qed.

Lemma prim_kc {A} ev (m : M A) : prim_ok ev m -> keeps_cancel m.
Proof.
  intros Hm e w r w' H Hr.
  destruct (Hm e w r w' H) as [[-> _] | (a & _ & _ & _ & C & _)].
  - by destruct Hr.
  - exact C.
Qed.

Lemma prim_np {A} ev (m : M A) : prim_ok ev m -> no_pyexc m.
Proof.
  intros Hm e w w' H.
  destruct (Hm e w _ w' H) as [[Hr _] | (a & Hr & _)]; discriminate Hr.
Qed.

(** The manager's own steps on the table of machines. *)
Lemma transition_entry_frame cid t e w r w' :
  transition_entry cid t e w = (r, w') ->
  (exists b, r = Ok b) /\ w_users w' = w_users w /\
  w_iteration w' = w_iteration w /\ w_cancelled_at w' = w_cancelled_at w /\
  P_quiet w w'.
Proof.
  unfold transition_entry. destruct (w_active w !! cid) as [sm|].
  - destruct (transition_to (w_clock w) sm t) as [ok sm'].
    intros H; injection H as <- <-. cbn [w_users w_iteration w_cancelled_at log_event set_active].
    split; [eauto|]. do 3 (split; [reflexivity|]).
    unfold P_quiet; cbn [w_trace log_event set_active]. rewrite !count_calls_snoc. destruct ok; cbn; split; lia.
  - intros H; injection H as <- <-. split; [eauto|]. do 3 (split; [reflexivity|]).
    reflexivity.
Qed.

Lemma transition_entry_pres (P : World -> World -> Prop) `{!PreOrder P} cid t :
  (forall w w', w_users w' = w_users w -> w_iteration w' = w_iteration w ->
     w_cancelled_at w' = w_cancelled_at w -> P_quiet w w' -> P w w') ->
  preserves P (transition_entry cid t).
Proof.
  intros HP e w r w' H.
  destruct (transition_entry_frame cid t e w r w' H) as (_ & U & I & C & Q).
  by apply HP.
Qed.

Lemma transition_entry_kc cid t : keeps_cancel (transition_entry cid t).
Proof.
  intros e w r w' H _. by destruct (transition_entry_frame cid t e w r w' H) as (_ & _ & _ & C & _).
Qed.

Lemma transition_entry_np cid t : no_pyexc (transition_entry cid t).
Proof.
  intros e w w' H. destruct (transition_entry_frame cid t e w _ w' H) as ([b Hb] & _).
  discriminate Hb.
Qed.

Lemma update_user_stats_ok' c r1 r2 uid d :
  (uid, d) ∈ stats_updates c r1 r2 ->
  prim_ok (EvUpdateUserStats uid d) (update_user_stats uid d).
Proof.
  intros Hx. unfold stats_updates in Hx.
  repeat case_decide; rewrite !elem_of_cons, elem_of_nil in Hx;
    destruct Hx as [Hx|[Hx|[]]]; injection Hx as -> ->;
    apply update_user_stats_ok; cbn; lia.
Qed.

Create HintDb prim.
Global Hint Resolve sleep_ok get_challenge_ok check_participants_joined_ok
  start_recording_ok stop_recording_ok get_fight_metrics_ok
  are_participants_active_ok update_fight_metrics_ok create_fight_ok
  finish_fight_ok update_challenge_status_ok cleanup_fight_ok
  expire_db_challenges_ok update_user_stats_ok' : prim.

(** Splitting a routine into its steps. *)
Ltac step_tac :=
  match goal with
  | |- PreOrder _ => typeclasses eauto
  | |- _ (has_entry _) => unfold has_entry
  | |- _ (finish_entry _ _) => unfold finish_entry
  | |- _ (end_fight_no_show _ _) => unfold end_fight_no_show
  | |- _ (end_fight_error _ _) => unfold end_fight_error
  | |- _ (end_fight_with_results _ _ _ _ _ _) => unfold end_fight_with_results
  | |- forall _, _ => intro
  | IH : forall _ _ _ _, preserves ?P (sampling_loop ?f _ _ _ _ _ _)
    |- preserves ?P (sampling_loop ?f _ _ _ _ _ _) => apply IH
  | IH : forall _ _ _ _, keeps_cancel (sampling_loop ?f _ _ _ _ _ _)
    |- keeps_cancel (sampling_loop ?f _ _ _ _ _ _) => apply IH
  | IH : forall _ _ _ _, no_pyexc (sampling_loop ?f _ _ _ _ _ _)
    |- no_pyexc (sampling_loop ?f _ _ _ _ _ _) => apply IH
  | |- preserves _ (mret _) => apply pres_ret
  | |- preserves _ (_ ≫= _) => apply pres_bind
  | |- preserves _ (try_except _ _) => apply pres_try
  | |- preserves _ (lift_opt _) => apply pres_lift_opt
  | |- preserves _ (raise _) => apply pres_raise
  | |- preserves _ (gets _) => apply pres_gets
  | |- preserves _ (asks _) => apply pres_asks
  | |- preserves _ (modify _) => apply pres_modify
  | |- preserves _ (mapM_ _ _) => apply pres_mapM_
  | |- preserves _ (transition_entry _ _) => apply transition_entry_pres
  | |- keeps_cancel (mret _) => apply kc_ret
  | |- keeps_cancel (_ ≫= _) => apply kc_bind
  | |- keeps_cancel (try_except _ _) => apply kc_try
  | |- keeps_cancel (lift_opt _) => apply kc_lift_opt
  | |- keeps_cancel (raise _) => apply kc_raise
  | |- keeps_cancel (gets _) => apply kc_gets
  | |- keeps_cancel (asks _) => apply kc_asks
  | |- keeps_cancel (modify _) => apply kc_modify
  | |- keeps_cancel (mapM_ _ _) => apply kc_mapM_
  | |- keeps_cancel (transition_entry _ _) => apply transition_entry_kc
  | |- no_pyexc (mret _) => apply np_ret
  | |- no_pyexc (_ ≫= _) => apply np_bind
  | |- no_pyexc (try_except _ _) => apply np_try
  | |- no_pyexc (gets _) => apply np_gets
  | |- no_pyexc (asks _) => apply np_asks
  | |- no_pyexc (modify _) => apply np_modify
  | |- no_pyexc (mapM_ _ _) => apply np_mapM_
  | |- no_pyexc (transition_entry _ _) => apply transition_entry_np
  | |- preserves _ (match ?x with _ => _ end) => destruct x
  | |- keeps_cancel (match ?x with _ => _ end) => destruct x
  | |- no_pyexc (match ?x with _ => _ end) => destruct x
  | |- preserves _ ((fun _ => _) _) => cbv beta
  | |- keeps_cancel ((fun _ => _) _) => cbv beta
  | |- no_pyexc ((fun _ => _) _) => cbv beta
  | |- preserves P_quiet _ =>
      eapply prim_quiet; [solve [eauto with prim] | reflexivity | reflexivity]
  | |- preserves P_no_release _ =>
      eapply prim_no_release; [solve [eauto with prim] | reflexivity]
  | |- preserves P_iter _ => eapply prim_iter; solve [eauto with prim]
  | |- preserves P_users _ => eapply prim_users; solve [eauto with prim]
  | |- keeps_cancel _ => eapply prim_kc; solve [eauto with prim]
  | |- no_pyexc _ => eapply prim_np; solve [eauto with prim]
  | |- _ (sampling_loop _ _ _ _ _ _ _) => solve [eauto with prim]
  end.

(** The side conditions on the manager's own steps. *)
Ltac side_tac :=
  match goal with
  | |- P_quiet _ _ => first [assumption | split; reflexivity]
  | |- P_users _ _ => apply P_users_same; first [assumption | reflexivity]
  | H : P_quiet ?a ?b |- P_no_release ?a ?b => exact (proj2 H)
  | |- P_no_release _ _ => reflexivity
  | |- P_iter _ _ =>
      let Hi := fresh in intros Hi;
      first [split; [congruence | left; congruence]
            | cbn; split; [exact Hi | left; reflexivity]]
  | |- w_cancelled_at _ = w_cancelled_at _ => reflexivity
  end.

Ltac routine_tac := repeat (step_tac || side_tac).

Lemma sampling_loop_quiet fuel c fid i fd m1 m2 :
  preserves P_quiet (sampling_loop fuel c fid i fd m1 m2).
Proof.
  revert i fd m1 m2. induction fuel; intros; cbn [sampling_loop]; routine_tac.
Qed.

Lemma sampling_loop_users fuel c fid i fd m1 m2 :
  preserves P_users (sampling_loop fuel c fid i fd m1 m2).
Proof.
  revert i fd m1 m2. induction fuel; intros; cbn [sampling_loop]; routine_tac.
Qed.

Lemma sampling_loop_kc fuel c fid i fd m1 m2 :
  keeps_cancel (sampling_loop fuel c fid i fd m1 m2).
Proof.
  revert i fd m1 m2. induction fuel; intros; cbn [sampling_loop]; routine_tac.
Qed.

Lemma sampling_loop_np fuel c fid i fd m1 m2 :
  no_pyexc (sampling_loop fuel c fid i fd m1 m2).
Proof.
  revert i fd m1 m2. induction fuel; intros; cbn [sampling_loop]; routine_tac.
Qed.

Global Hint Resolve sampling_loop_quiet sampling_loop_users sampling_loop_kc
  sampling_loop_np : prim.

Lemma end_fight_error_np cid fid : no_pyexc (end_fight_error cid fid).
Proof. unfold end_fight_error. routine_tac. Qed.

Lemma end_fight_error_iter cid fid : preserves P_iter (end_fight_error cid fid).
Proof. unfold end_fight_error, finish_entry, has_entry. routine_tac. Qed.

Lemma end_fight_error_no_release cid fid :
  preserves P_no_release (end_fight_error cid fid).
Proof. unfold end_fight_error, finish_entry, has_entry. routine_tac. Qed.

Lemma end_fight_with_results_np cid fid d m1 m2 ft :
  no_pyexc (end_fight_with_results cid fid d m1 m2 ft).
Proof. unfold end_fight_with_results. apply np_try, end_fight_error_np. Qed.

Lemma end_fight_with_results_iter cid fid d m1 m2 ft :
  preserves P_iter (end_fight_with_results cid fid d m1 m2 ft).
Proof.
  unfold end_fight_with_results, end_fight_error, finish_entry, has_entry.
  routine_tac.
Qed.

Lemma end_fight_with_results_users cid fid d m1 m2 ft :
  preserves P_users (end_fight_with_results cid fid d m1 m2 ft).
Proof.
  unfold end_fight_with_results, end_fight_error, finish_entry, has_entry.
  routine_tac.
Qed.

Lemma end_fight_no_show_iter cid fid : preserves P_iter (end_fight_no_show cid fid).
Proof. unfold end_fight_no_show, finish_entry, has_entry. routine_tac. Qed.

Lemma monitor_fight_users cid fid : preserves P_users (monitor_fight cid fid).
Proof.
  unfold monitor_fight. routine_tac.
Qed.

Lemma cancel_challenge_quiet cid : preserves P_quiet (cancel_challenge cid).
Proof. unfold cancel_challenge, finish_entry, has_entry. routine_tac. Qed.

Lemma cq_of_iter {A} (m : M A) : preserves P_iter m -> cancel_quiet m.
Proof.
  intros Hm e w r w' k Hi Hn H Hk.
  destruct (Hm e w r w' H Hi) as [_ [C|C]]; congruence.
Qed.

Lemma cq_bind {A B} (m : M A) (f : A -> M B) :
  preserves P_iter m -> keeps_cancel m -> preserves P_quiet m ->
  (forall a, cancel_quiet (f a)) -> cancel_quiet (m ≫= f).
Proof.
  intros Hi Hkc Hq Hf e w r w' k Hw Hn H Hk. rewrite bind_run in H.
  destruct (m e w) as [[a|x] w1] eqn:E.
  - destruct (Hi e w _ w1 E Hw) as [Hw1 _].
    assert (Hn1 : w_cancelled_at w1 = None)
      by (rewrite (Hkc e w _ w1 E) by discriminate; exact Hn).
    destruct (Hf a e w1 r w' k Hw1 Hn1 H Hk) as [Hr Hq1].
    split; [exact Hr|]. etrans; [eapply Hq, E | exact Hq1].
  - injection H as <- <-.
    destruct (Hi e w _ w1 E Hw) as [_ [C|C]]; congruence.
Qed.

Lemma cq_try {A} (m h : M A) :
  no_pyexc m -> cancel_quiet m -> cancel_quiet (try_except m h).
Proof.
  intros Hnp Hm e w r w' k Hw Hn H Hk. unfold try_except in H.
  destruct (m e w) as [[a|[|]] w1] eqn:E.
  - injection H as <- <-. eapply Hm; eauto.
  - exfalso. by apply (Hnp e w w1).
  - injection H as <- <-. eapply Hm; eauto.
Qed.

(** The sampling loop followed by steps run outside it. *)
Lemma cq_loop {B} (L : M B) (f : B -> M unit) :
  keeps_cancel L -> preserves P_quiet L ->
  (forall b e w r w', f b e w = (r, w') ->
     w_cancelled_at w' = w_cancelled_at w \/ w_cancelled_at w' = Some None) ->
  cancel_quiet (L ≫= f).
Proof.
  intros Hkc Hq Hf e w r w' k Hw Hn H Hk. rewrite bind_run in H.
  destruct (L e w) as [[b|x] w1] eqn:E.
  - assert (Hn1 : w_cancelled_at w1 = None)
      by (rewrite (Hkc e w _ w1 E) by discriminate; exact Hn).
    destruct (Hf b e w1 r w' H) as [C|C]; congruence.
  - injection H as <- <-. destruct x.
    + rewrite (Hkc e w _ w1 E) in Hk by discriminate. congruence.
    + split; [reflexivity | eapply Hq, E].
Qed.

Lemma after_loop_outside cid fid (ft : option FightType) :
  forall (b : Z * Metrics * Metrics) e w r w',
  (let '(fight_duration, m1, m2) := b in
   modify (set_iteration None);;
   end_fight_with_results cid fid fight_duration m1 m2 ft) e w = (r, w') ->
  w_cancelled_at w' = w_cancelled_at w \/ w_cancelled_at w' = Some None.
Proof.
  intros [[d m1] m2] e w r w' H. rewrite bind_run in H. cbn in H.
  destruct (end_fight_with_results_iter cid fid d m1 m2 ft e
              (set_iteration None w) r w' H eq_refl) as [_ C].
  exact C.
Qed.

Lemma monitor_fight_cancel_quiet cid fid : cancel_quiet (monitor_fight cid fid).
Proof.
  unfold monitor_fight. apply cq_try; [routine_tac|].
  apply cq_bind; [routine_tac..|]. intros [c|]; [|apply cq_of_iter; routine_tac].
  apply cq_bind; [routine_tac..|]. intros [|]; [|apply cq_of_iter; routine_tac].
  apply cq_bind; [routine_tac..|]. intros timeout.
  apply cq_bind; [routine_tac..|]. intros _.
  apply cq_bind; [routine_tac..|]. intros [|]; cbn [negb];
    [|apply cq_of_iter, end_fight_no_show_iter].
  apply cq_bind; [routine_tac..|]. intros _.
  apply cq_bind; [routine_tac..|]. intros _.
  apply cq_bind; [routine_tac..|]. intros max_duration.
  apply cq_loop; [routine_tac.. |]. apply after_loop_outside.
Qed.

(** Symbolic execution of a routine on a world whose contents are
    unknown: one case split at a time. *)
Ltac sym_step :=
  match goal with
  | |- context [match ?x with Some _ => _ | None => _ end] => destruct x eqn:?
  | |- context [if decide ?P then _ else _] => destruct (decide P)
  | |- context [if bool_decide ?P then _ else _] => destruct (bool_decide P) eqn:?
  | |- context [let '(_, _) := transition_to ?n ?s ?t in _] =>
      destruct (transition_to n s t) as [[|] ?] eqn:?
  end.

(** Runs of the single calls of the finalization, with no cancellation
    pending. *)
Lemma stop_recording_run fid e w :
  env_cancel_at e = None ->
  stop_recording fid e w = (Ok tt, log_event (EvStopRecording fid) (bump_awaits w)).
Proof. intros Hc. unfold stop_recording. rewrite await_run by exact Hc. reflexivity. Qed.

Lemma get_challenge_run cid e w :
  env_cancel_at e = None ->
  get_challenge cid e w =
    (Ok (w_challenges w !! cid), log_event (EvGetChallenge cid) (bump_awaits w)).
Proof. intros Hc. unfold get_challenge. rewrite await_run by exact Hc. reflexivity. Qed.

Lemma finish_fight_run fid winner r1 r2 f e w :
  env_cancel_at e = None -> w_fights w !! fid = Some f ->
  finish_fight fid winner r1 r2 e w =
    (Ok true, set_fights (<[fid := mkFight (f_challenge_id f) (f_participant1_id f)
                    (f_participant2_id f) (f_fight_type f) (f_duration f)
                    winner r1 r2 (f_participant1_metrics f)
                    (f_participant2_metrics f) (f_group_call_id f)
                    (f_started_at f) (w_clock w)]> (w_fights w))
                (log_event (EvFinishFight fid winner r1 r2) (bump_awaits w))).
Proof.
  intros Hc Hf. unfold finish_fight. rewrite await_run by exact Hc.
  cbn [w_fights log_event bump_awaits fst snd]. rewrite Hf. reflexivity.
Qed.

Lemma lift_opt_some {A} (a : A) e w : lift_opt (Some a) e w = (Ok a, w).
Proof. reflexivity. Qed.

Lemma rq_bind {A B} (m : M A) (f : A -> M B) :
  runs_quiet m -> (forall a, runs_quiet (f a)) -> runs_quiet (m ≫= f).
Proof.
  intros Hm Hf e w Hc.
  destruct (Hm e w Hc) as (a & w1 & H1 & F1 & U1).
  destruct (Hf a e w1 Hc) as (b & w2 & H2 & F2 & U2).
  exists b, w2. rewrite (bind_ok _ _ _ _ _ _ H1). split; [exact H2 | split; congruence].
Qed.

Lemma rq_ret {A} (a : A) : runs_quiet (mret a).
Proof. intros e w _. exists a, w. auto. Qed.

Lemma rq_await {A} ev (eff : Env -> World -> A * World) :
  (forall e w, w_fights (eff e w).2 = w_fights w /\ w_users (eff e w).2 = w_users w) ->
  runs_quiet (await_ ev eff).
Proof.
  intros Heff e w Hc. rewrite await_run by exact Hc.
  destruct (Heff e (log_event ev (bump_awaits w))) as [F U].
  eexists _, _. split; [reflexivity | split; assumption].
Qed.

Lemma update_challenge_status_rq cid st : runs_quiet (update_challenge_status cid st).
Proof.
  apply rq_await. intros e w. cbn. destruct (w_challenges w !! cid); auto.
Qed.

Lemma cleanup_fight_rq p1 p2 : runs_quiet (cleanup_fight p1 p2).
Proof. apply rq_await. auto. Qed.

Lemma finish_entry_rq cid t : runs_quiet (finish_entry cid t).
Proof.
  unfold finish_entry, has_entry. apply rq_bind.
  - intros e w _. eexists _, _. split; [reflexivity | auto].
  - intros [|]; [|apply rq_ret]. apply rq_bind.
    + intros e w _. unfold transition_entry.
      destruct (w_active w !! cid); [|eexists _, _; split; [reflexivity | auto]].
      destruct (transition_to _ _ _). eexists _, _. split; [reflexivity | auto].
    + intros _ e w _. eexists _, _. split; [reflexivity | auto].
Qed.

(** The [update_user_stats] loop of the finalization. *)
Lemma stats_loop_run (l : list (Z * UserStats)) e w :
  env_cancel_at e = None ->
  exists w', mapM_ (fun '(uid, d) => _ ← update_user_stats uid d; mret tt) l e w
               = (Ok tt, w') /\
    w_fights w' = w_fights w /\ w_users w' = apply_stats (w_users w) l.
Proof.
  intros Hc. revert w. induction l as [|[uid d] l IH]; intros w.
  - exists w. auto.
  - cbn [mapM_ apply_stats]. rewrite bind_run, bind_run.
    unfold update_user_stats at 1. rewrite await_run by exact Hc.
    cbn [w_users log_event bump_awaits fst snd].
    destruct (w_users w !! uid) as [u|] eqn:Hu.
    + destruct (IH (set_users (<[uid := add_stats u d]> (w_users w))
                     (log_event (EvUpdateUserStats uid d) (bump_awaits w))))
        as (w' & H' & F' & U').
      exists w'. split; [exact H' | split; [exact F' | exact U']].
    + destruct (IH (log_event (EvUpdateUserStats uid d) (bump_awaits w)))
        as (w' & H' & F' & U').
      exists w'. split; [exact H' | split; [exact F' | exact U']].
Qed.

(** With no cancellation pending and the challenge and fight documents
    present, the finalization completes: the fight document gets the
    outcome [manager_outcome] computed, the user documents get the
    [stats_updates], and nothing else of the two collections changes. *)
Lemma end_fight_with_results_run e w cid fid duration m1 m2 ft c f wid r1 r2 :
  env_cancel_at e = None -> w_challenges w !! cid = Some c ->
  w_fights w !! fid = Some f ->
  manager_outcome ft m1 m2 (Some c) = Some (wid, r1, r2) ->
  exists w' f', end_fight_with_results cid fid duration m1 m2 ft e w = (Ok tt, w') /\
    w_fights w' = <[fid := f']> (w_fights w) /\ f_winner_id f' = wid /\
    f_participant1_result f' = r1 /\ f_participant2_result f' = r2 /\
    w_users w' = apply_stats (w_users w) (stats_updates c r1 r2).
Proof.
  intros Hc Hch Hf Ho. unfold end_fight_with_results, try_except.
  rewrite bind_run, stop_recording_run by exact Hc. cbv beta iota.
  rewrite bind_run, get_challenge_run by exact Hc. cbv beta iota.
  cbn [w_challenges log_event bump_awaits]. rewrite Hch.
  rewrite bind_run, Ho, lift_opt_some. cbv beta iota.
  rewrite bind_run. erewrite finish_fight_run by (first [exact Hc | exact Hf]).
  cbv beta iota.
  rewrite bind_run, lift_opt_some. cbv beta iota.
  rewrite bind_run.
  match goal with
  | |- context [mapM_ ?F ?l ?e0 ?w0] =>
      destruct (stats_loop_run l e0 w0 Hc) as (w4 & H4 & F4 & U4)
  end.
  rewrite H4. cbv beta iota.
  match goal with
  | |- context [(?m ≫= ?k) ?e0 w4] =>
      assert (Ht : runs_quiet (m ≫= k))
        by (apply rq_bind; [apply update_challenge_status_rq | intros _];
            apply rq_bind; [apply finish_entry_rq | intros _];
            apply cleanup_fight_rq);
      destruct (Ht e0 w4 Hc) as (a5 & w5 & H5 & F5 & U5)
  end.
  rewrite H5. destruct a5.
  eexists _, _. split; [reflexivity|].
  rewrite F5, F4, U5, U4. cbn [w_fights w_users set_fights log_event bump_awaits].
  repeat split; reflexivity.
Qed.

(* ------------------------------------------------------------------ *)
(** ** Fight finalization ([_end_fight_with_results]) *)

(** C2, counterexample: participant 2 joined 3 s after participant 1
    (join_time and total_join_time 100 against 103).  The finalization
    persists participant 2 (user 2) as winner with LOSS/WIN, whereas
    [WinnerDetector.determine_winner] on the same metrics says draw. *)
Lemma end_fight_outcome_vs_detector_counterexample :
  option_map (fun f => (f_winner_id f, f_participant1_result f, f_participant2_result f))
    (w_fights (end_fight_with_results "c1" "f1" 30 bag_t1 bag_t2 (Some TIMING)
                 (env0 true None) w0).2 !! "f1") = Some (Some 2, LOSS, WIN) /\
  determine_winner (volume_threshold cfg0) (Some TIMING) bag_t1 bag_t2 =
    (None, DRAW, DRAW).
Proof. split; vm_compute; reflexivity. Qed.

(** C2, as the code has it: when the challenge and the fight documents
    exist and no cancellation arrives, [_end_fight_with_results]
    completes and the fight document holds the winner and the two results
    of the manager's own rule [manager_outcome] (TIMING: strict comparison
    of [join_time]; VOLUME: [speak_time * volume_sum]; otherwise no winner
    with LOSS/WIN), not those of [WinnerDetector.determine_winner]. *)
Theorem end_fight_with_results_outcome (e : Env) (w : World) (cid fid : string)
    (duration : Z) (m1 m2 : Metrics) (ft : option FightType)
    (c : ChallengeRec) (f : FightRec) (wid : option Z) (r1 r2 : FightResult)
    (Hc : env_cancel_at e = None) (Hch : w_challenges w !! cid = Some c)
    (Hf : w_fights w !! fid = Some f)
    (Ho : manager_outcome ft m1 m2 (Some c) = Some (wid, r1, r2)) :
  let '(r, w') := end_fight_with_results cid fid duration m1 m2 ft e w in
  r = Ok tt /\
  exists f', w_fights w' !! fid = Some f' /\ f_winner_id f' = wid /\
    f_participant1_result f' = r1 /\ f_participant2_result f' = r2.
Proof.
  destruct (end_fight_with_results_run e w cid fid duration m1 m2 ft c f wid r1 r2
              Hc Hch Hf Ho) as (w' & f' & -> & Hfs & Hw & H1 & H2 & _).
  split; [reflexivity|]. exists f'. rewrite Hfs, lookup_insert_eq. auto.
Qed.

Lemma end_fight_with_results_outcome_witness :
  env_cancel_at (env0 true None) = None /\ w_challenges w0 !! "c1" = Some ch0 /\
  w_fights w0 !! "f1" = Some fi0 /\
  manager_outcome (Some TIMING) bag_t1 bag_t2 (Some ch0) = Some (Some 2, LOSS, WIN) /\
  let '(r, w') := end_fight_with_results "c1" "f1" 30 bag_t1 bag_t2 (Some TIMING)
                    (env0 true None) w0 in
  r = Ok tt /\
  exists f', w_fights w' !! "f1" = Some f' /\ f_winner_id f' = Some 2 /\
    f_participant1_result f' = LOSS /\ f_participant2_result f' = WIN.
Proof.
  split; [reflexivity|]. split; [reflexivity|]. split; [reflexivity|].
  split; [vm_compute; reflexivity|].
  apply (end_fight_with_results_outcome (env0 true None) w0 "c1" "f1" 30
           bag_t1 bag_t2 (Some TIMING) ch0 fi0 (Some 2) LOSS WIN);
    [reflexivity | reflexivity | reflexivity | vm_compute; reflexivity].
Defined.

(** C7, counterexample: running the finalization twice for fight "f1"
    counts the fight twice in both users' statistics. *)
Lemma finalization_twice_counterexample :
  let w1 := (end_fight_with_results "c1" "f1" 30 bag_t1 bag_t2 (Some TIMING)
               (env0 true None) w0).2 in
  let w2 := (end_fight_with_results "c1" "f1" 30 bag_t1 bag_t2 (Some TIMING)
               (env0 true None) w1).2 in
  w_users w1 !! 1 = Some (mkUserStats 1 0 1 0) /\
  w_users w1 !! 2 = Some (mkUserStats 1 1 0 0) /\
  w_users w2 !! 1 = Some (mkUserStats 2 0 2 0) /\
  w_users w2 !! 2 = Some (mkUserStats 2 2 0 0).
Proof. vm_compute. repeat split. Qed.

(** C7, as the code has it: there is no guard against a second
    finalization.  Every completed run of [_end_fight_with_results] adds
    one fight to each participant's statistics together with exactly one
    win, loss or draw (WIN/LOSS, LOSS/WIN or DRAW/DRAW), whatever the
    documents held before, so a second run for the same fight counts it
    again.  No counter is ever decremented by the finalization or by the
    whole monitoring routine. *)
Theorem end_fight_with_results_user_stats (e : Env) (w : World) (cid fid : string)
    (duration : Z) (m1 m2 : Metrics) (ft : option FightType)
    (c : ChallengeRec) (f : FightRec) (wid : option Z) (r1 r2 : FightResult)
    (u1 u2 : UserStats)
    (Hc : env_cancel_at e = None) (Hch : w_challenges w !! cid = Some c)
    (Hf : w_fights w !! fid = Some f)
    (Ho : manager_outcome ft m1 m2 (Some c) = Some (wid, r1, r2))
    (Hne : ch_challenger_id c <> ch_opponent_id c)
    (Hu1 : w_users w !! ch_challenger_id c = Some u1)
    (Hu2 : w_users w !! ch_opponent_id c = Some u2) :
  (let '(r, w') := end_fight_with_results cid fid duration m1 m2 ft e w in
   r = Ok tt /\
   exists d1 d2,
     ((d1 = one_win /\ d2 = one_loss) \/ (d1 = one_loss /\ d2 = one_win) \/
      (d1 = one_draw /\ d2 = one_draw)) /\
     w_users w' = <[ch_opponent_id c := add_stats u2 d2]>
                    (<[ch_challenger_id c := add_stats u1 d1]> (w_users w))) /\
  (forall e' w1 r w1', end_fight_with_results cid fid duration m1 m2 ft e' w1 = (r, w1') ->
     P_users w1 w1') /\
  (forall e' w1 r w1', monitor_fight cid fid e' w1 = (r, w1') -> P_users w1 w1').
Proof.
  split; [|split; [apply end_fight_with_results_users | apply monitor_fight_users]].
  destruct (end_fight_with_results_run e w cid fid duration m1 m2 ft c f wid r1 r2
              Hc Hch Hf Ho) as (w' & f' & -> & _ & _ & _ & _ & Hus).
  split; [reflexivity|]. rewrite Hus. unfold stats_updates.
  destruct (decide (r1 = WIN)); [|destruct (decide (r2 = WIN))];
    cbn [apply_stats]; rewrite Hu1, (lookup_insert_ne _ _ _ _ Hne), Hu2;
    eexists _, _; (split; [|reflexivity]); auto.
Qed.

Lemma end_fight_with_results_user_stats_witness :
  env_cancel_at (env0 true None) = None /\ w_challenges w0 !! "c1" = Some ch0 /\
  w_fights w0 !! "f1" = Some fi0 /\
  manager_outcome (Some TIMING) bag_t1 bag_t2 (Some ch0) = Some (Some 2, LOSS, WIN) /\
  ch_challenger_id ch0 <> ch_opponent_id ch0 /\
  w_users w0 !! 1 = Some zero_stats /\ w_users w0 !! 2 = Some zero_stats /\
  (let '(r, w') := end_fight_with_results "c1" "f1" 30 bag_t1 bag_t2 (Some TIMING)
                     (env0 true None) w0 in
   r = Ok tt /\
   exists d1 d2,
     ((d1 = one_win /\ d2 = one_loss) \/ (d1 = one_loss /\ d2 = one_win) \/
      (d1 = one_draw /\ d2 = one_draw)) /\
     w_users w' = <[ch_opponent_id ch0 := add_stats zero_stats d2]>
                    (<[ch_challenger_id ch0 := add_stats zero_stats d1]> (w_users w0))).
Proof.
  assert (A1 : env_cancel_at (env0 true None) = None) by reflexivity.
  assert (A2 : w_challenges w0 !! "c1" = Some ch0) by reflexivity.
  assert (A3 : w_fights w0 !! "f1" = Some fi0) by reflexivity.
  assert (A4 : manager_outcome (Some TIMING) bag_t1 bag_t2 (Some ch0) =
                 Some (Some 2, LOSS, WIN)) by (vm_compute; reflexivity).
  assert (A5 : ch_challenger_id ch0 <> ch_opponent_id ch0) by discriminate.
  assert (A6 : w_users w0 !! ch_challenger_id ch0 = Some zero_stats) by reflexivity.
  assert (A7 : w_users w0 !! ch_opponent_id ch0 = Some zero_stats) by reflexivity.
  destruct (end_fight_with_results_user_stats (env0 true None) w0 "c1" "f1" 30
              bag_t1 bag_t2 (Some TIMING) ch0 fi0 (Some 2) LOSS WIN zero_stats zero_stats
              A1 A2 A3 A4 A5 A6 A7) as [H _].
  split; [exact A1|]. split; [exact A2|]. split; [exact A3|]. split; [exact A4|].
  split; [exact A5|]. split; [exact A6|]. split; [exact A7|]. exact H.
Defined.

(* ------------------------------------------------------------------ *)
(** ** The monitoring routine ([_monitor_fight]) *)

(** C6, counterexample: nobody joins within the 30 s deadline.  The
    fight is finished as NO_SHOW/NO_SHOW, but [transition_to(FIGHT_FINISHED)]
    from PARTICIPANTS_JOINING is rejected (the machine never reaches
    FIGHT_FINISHED), and the fight's duration stays 0, not the deadline. *)
Lemma monitor_fight_no_show_counterexample :
  w_trace (monitor_fight "c1" "f1" (env0 false None) w0).2 =
    [EvGetChallenge "c1"; EvSleep 30; EvCheckJoined;
     EvFinishFight "f1" None NO_SHOW NO_SHOW; EvUpdateStatus "c1" COMPLETED;
     EvInvalidTransition "c1" PARTICIPANTS_JOINING FIGHT_FINISHED] /\
  option_map f_duration (w_fights (monitor_fight "c1" "f1" (env0 false None) w0).2 !! "f1")
    = Some 0 /\
  challenge_timeout cfg0 = 30.
Proof. vm_compute. repeat split. Qed.

(** C6, what the code does (diverging from the intended FIGHT_FINISHED
    state and persisted duration): when the participants have not joined after
    [challenge_timeout] seconds, [_monitor_fight] finishes the fight with
    no winner and NO_SHOW/NO_SHOW, marks the challenge COMPLETED and
    discards the in-memory entry; nothing else is called (no recording,
    no winner determination, no pool release).  The machine is sent
    [transition_to(FIGHT_FINISHED)], which the table rejects from
    PARTICIPANTS_JOINING, and the fight's duration is left as it was. *)
Theorem monitor_fight_no_show (e : Env) (w : World) (cid fid : string)
    (c : ChallengeRec) (sm : StateMachine) (f : FightRec)
    (Hc : env_cancel_at e = None) (Hj : env_joined e = false)
    (Hch : w_challenges w !! cid = Some c) (Hsm : w_active w !! cid = Some sm)
    (Hst : current_state sm = PARTICIPANTS_JOINING)
    (Hf : w_fights w !! fid = Some f) :
  let T := challenge_timeout (env_config e) in
  let '(r, w') := monitor_fight cid fid e w in
  r = Ok tt /\
  (exists f', w_fights w' !! fid = Some f' /\ f_winner_id f' = None /\
     f_participant1_result f' = NO_SHOW /\ f_participant2_result f' = NO_SHOW /\
     f_duration f' = f_duration f) /\
  (exists c', w_challenges w' !! cid = Some c' /\ ch_status c' = COMPLETED) /\
  w_active w' !! cid = None /\
  w_trace w' = w_trace w ++ [EvGetChallenge cid; EvSleep T; EvCheckJoined;
     EvFinishFight fid None NO_SHOW NO_SHOW; EvUpdateStatus cid COMPLETED;
     EvInvalidTransition cid PARTICIPANTS_JOINING FIGHT_FINISHED].
Proof.
  intros T.
  destruct e as [cfg j mt ac ca]; cbn in Hc, Hj; subst ca j.
  destruct w as [act ft chs fs us clk tr aw it ca]; cbn in Hch, Hsm, Hf.
  unfold monitor_fight, try_except.
  unfold mbind, M_bind.
  cbn. rewrite Hch. cbn. rewrite Hsm. cbn.
  unfold end_fight_no_show, try_except, finish_entry, has_entry, gets.
  unfold mbind, M_bind.
  cbn. rewrite Hf. cbn. rewrite Hch. cbn. rewrite Hsm. cbn.
  unfold transition_entry. cbn. rewrite Hsm.
  rewrite transition_to_rejects by (rewrite Hst; cbn; set_solver).
  cbn. rewrite Hst.
  split; [reflexivity|].
  split; [eexists; split; [apply lookup_insert_eq|]; cbn; auto|].
  split; [eexists; split; [apply lookup_insert_eq|]; reflexivity|].
  split; [apply lookup_delete_eq|].
  rewrite <- !app_assoc. reflexivity.
Qed.

Lemma monitor_fight_no_show_witness :
  env_cancel_at (env0 false None) = None /\ env_joined (env0 false None) = false /\
  w_challenges w0 !! "c1" = Some ch0 /\ w_active w0 !! "c1" = Some sm_joining /\
  current_state sm_joining = PARTICIPANTS_JOINING /\ w_fights w0 !! "f1" = Some fi0 /\
  w_active (monitor_fight "c1" "f1" (env0 false None) w0).2 !! "c1" = None.
Proof.
  do 6 (split; [reflexivity|]).
  pose proof (monitor_fight_no_show (env0 false None) w0 "c1" "f1" ch0 sm_joining fi0
                eq_refl eq_refl eq_refl eq_refl eq_refl eq_refl) as H.
  cbv zeta in H. destruct (monitor_fight "c1" "f1" (env0 false None) w0) as [r w'].
  exact (proj1 (proj2 (proj2 (proj2 H)))).
Defined.

(** What the error path [_end_fight_error] does, with the collaborator
    calls it is built from. *)
Lemma alter_some {A} (f : A -> A) (m : gmap string A) k x :
  m !! k = Some x -> alter f k m = <[k := f x]> m.
Proof.
  intros H. apply map_eq. intros i. destruct (decide (k = i)) as [<-|Hne];
    simplify_map_eq; reflexivity.
Qed.

Lemma alter_none {A} (f : A -> A) (m : gmap string A) k :
  m !! k = None -> alter f k m = m.
Proof.
  intros H. apply map_eq. intros i. destruct (decide (k = i)) as [<-|Hne];
    simplify_map_eq; reflexivity.
Qed.

Lemma update_challenge_status_run cid st e w :
  env_cancel_at e = None ->
  exists b, update_challenge_status cid st e w =
    (Ok b, set_challenges (alter (with_status st) cid (w_challenges w))
             (log_event (EvUpdateStatus cid st) (bump_awaits w))).
Proof.
  intros Hc. unfold update_challenge_status. rewrite await_run by exact Hc.
  cbn [w_challenges log_event bump_awaits fst snd].
  destruct (w_challenges w !! cid) as [c|] eqn:E.
  - rewrite (alter_some _ _ _ _ E). eexists. reflexivity.
  - rewrite (alter_none _ _ _ E). eexists. reflexivity.
Qed.

Lemma finish_entry_run cid t e w :
  exists w', finish_entry cid t e w = (Ok tt, w') /\
    w_active w' = delete cid (w_active w) /\ same_docs w w'.
Proof.
  unfold finish_entry, has_entry. rewrite bind_run. cbn [gets].
  destruct (w_active w !! cid) as [sm|] eqn:E.
  - rewrite bool_decide_true by (eexists; reflexivity).
    rewrite bind_run. unfold transition_entry. rewrite E.
    destruct (transition_to (w_clock w) sm t) as [ok sm'] eqn:Et.
    eexists. split; [reflexivity|].
    unfold same_docs, P_quiet.
    cbn [w_active w_challenges w_fights w_users w_fight_tasks w_clock w_trace log_event set_active].
    split; [apply delete_insert_eq|].
    rewrite !count_calls_snoc.
    repeat split; destruct ok; cbn; lia.
  - rewrite bool_decide_false by (intros [? H]; discriminate).
    eexists. split; [reflexivity|]. split; [symmetry; apply delete_id, E|].
    repeat split.
Qed.

Lemma finish_fight_alter fid winner r1 r2 e w :
  env_cancel_at e = None ->
  exists b, finish_fight fid winner r1 r2 e w =
    (Ok b, set_fights (alter (fun f => mkFight (f_challenge_id f) (f_participant1_id f)
                    (f_participant2_id f) (f_fight_type f) (f_duration f)
                    winner r1 r2 (f_participant1_metrics f)
                    (f_participant2_metrics f) (f_group_call_id f)
                    (f_started_at f) (w_clock w)) fid (w_fights w))
             (log_event (EvFinishFight fid winner r1 r2) (bump_awaits w))).
Proof.
  intros Hc. unfold finish_fight. rewrite await_run by exact Hc.
  cbn [w_fights w_clock log_event bump_awaits fst snd].
  destruct (w_fights w !! fid) as [f|] eqn:E.
  - rewrite (alter_some _ _ _ _ E). eexists. reflexivity.
  - rewrite (alter_none _ _ _ E). eexists. reflexivity.
Qed.

Lemma end_fight_error_effects (e : Env) (w : World) (cid fid : string) :
  env_cancel_at e = None ->
  exists w', end_fight_error cid fid e w = (Ok tt, w') /\
    w_fights w' =
      alter (fun f => mkFight (f_challenge_id f) (f_participant1_id f)
                        (f_participant2_id f) (f_fight_type f) (f_duration f)
                        None FR_CANCELLED FR_CANCELLED (f_participant1_metrics f)
                        (f_participant2_metrics f) (f_group_call_id f)
                        (f_started_at f) (w_clock w)) fid (w_fights w) /\
    w_challenges w' = alter (with_status CS_CANCELLED) cid (w_challenges w) /\
    w_active w' = delete cid (w_active w) /\ w_users w' = w_users w /\
    count_calls is_stop_recording (w_trace w') =
      S (count_calls is_stop_recording (w_trace w)) /\
    count_calls is_cleanup_fight (w_trace w') = count_calls is_cleanup_fight (w_trace w).
Proof.
  intros Hc. unfold end_fight_error, try_except.
  rewrite bind_run.
  destruct (finish_fight_alter fid None FR_CANCELLED FR_CANCELLED e w Hc) as [b1 ->].
  rewrite bind_run.
  match goal with |- context [update_challenge_status cid CS_CANCELLED e ?w1] =>
    destruct (update_challenge_status_run cid CS_CANCELLED e w1 Hc) as [b2 ->]
  end.
  rewrite bind_run.
  match goal with |- context [finish_entry cid CANCELLED e ?w1] =>
    destruct (finish_entry_run cid CANCELLED e w1) as (w2 & -> & Ha & Hch & Hf & Hu & _ & _ & [Hq1 Hq2])
  end.
  rewrite stop_recording_run by exact Hc.
  eexists. split; [reflexivity|].
  cbn [w_fights w_challenges w_active w_users w_trace log_event bump_awaits set_fights
       set_challenges].
  rewrite Ha, Hch, Hf, Hu. cbn [w_fights w_challenges w_active w_users w_trace log_event
       bump_awaits set_fights set_challenges w_clock].
  rewrite !count_calls_snoc, Hq1, Hq2.
  cbn [w_trace log_event bump_awaits set_fights set_challenges].
  rewrite !count_calls_snoc. cbn. repeat split; lia.
Qed.

(** C9, counterexample: [cancel_challenge] cancels the monitoring task
    while it awaits the metrics of the first sampling iteration.  The
    [CancelledError] is not an [Exception], so it leaves the routine with
    neither [stop_recording] nor the pool release [cleanup_fight] called,
    and [cancel_challenge] calls neither. *)
Lemma cancel_mid_sampling_counterexample :
  w_cancelled_at (monitor_fight "c1" "f1" (with_cancel (env0 true None) (Some 5%nat)) w0).2
    = Some (Some 0%nat) /\
  (monitor_fight "c1" "f1" (with_cancel (env0 true None) (Some 5%nat)) w0).1
    = Raise CancelledError /\
  count_calls is_stop_recording
    (w_trace (cancel_during_monitor "c1" "f1" 5%nat (env0 true None) w0).2) = 0%nat /\
  count_calls is_cleanup_fight
    (w_trace (cancel_during_monitor "c1" "f1" 5%nat (env0 true None) w0).2) = 0%nat.
Proof. vm_compute. repeat split. Qed.

(** C9, what the code does (resources are not released on every exit
    path): whatever sampling iteration the cancellation
    arrives at, the monitoring routine ends with [CancelledError] and,
    together with [cancel_challenge], adds no [stop_recording] call and no
    pool release ([cleanup_fight]) to those made before.  On the error
    path ([_end_fight_error]) the pool is not released either, while the
    recording is stopped once. *)
Theorem cancel_during_sampling_no_cleanup (cid fid : string) (e : Env) (w : World)
    (n k : nat)
    (Hi : w_iteration w = None) (Hn : w_cancelled_at w = None)
    (Hk : w_cancelled_at (monitor_fight cid fid (with_cancel e (Some n)) w).2
            = Some (Some k)) :
  (monitor_fight cid fid (with_cancel e (Some n)) w).1 = Raise CancelledError /\
  count_calls is_stop_recording (w_trace (cancel_during_monitor cid fid n e w).2)
    = count_calls is_stop_recording (w_trace w) /\
  count_calls is_cleanup_fight (w_trace (cancel_during_monitor cid fid n e w).2)
    = count_calls is_cleanup_fight (w_trace w) /\
  (forall e' w1 r w1', end_fight_error cid fid e' w1 = (r, w1') ->
     count_calls is_cleanup_fight (w_trace w1') = count_calls is_cleanup_fight (w_trace w1)) /\
  (forall e' w1, env_cancel_at e' = None ->
     exists w1', end_fight_error cid fid e' w1 = (Ok tt, w1') /\
       count_calls is_stop_recording (w_trace w1') =
         S (count_calls is_stop_recording (w_trace w1))).
Proof.
  unfold cancel_during_monitor.
  destruct (monitor_fight cid fid (with_cancel e (Some n)) w) as [r w'] eqn:E.
  cbn in Hk |- *.
  destruct (monitor_fight_cancel_quiet cid fid _ w r w' k Hi Hn E Hk) as [Hr Hq].
  destruct (cancel_challenge cid (with_cancel e None) w') as [r2 w''] eqn:E2.
  pose proof (cancel_challenge_quiet cid _ w' r2 w'' E2) as Hq2.
  assert (Hq' : P_quiet w w'') by (etrans; eassumption).
  destruct Hq' as [Hs Hl]. cbn.
  split; [exact Hr|]. split; [exact Hs|]. split; [exact Hl|].
  split; [intros e' w1 r1 w1' H; exact (end_fight_error_no_release cid fid e' w1 r1 w1' H)|].
  intros e' w1 Hc'.
  destruct (end_fight_error_effects e' w1 cid fid Hc') as (w1' & Hr' & _ & _ & _ & _ & Hs' & _).
  exists w1'. split; [exact Hr'|exact Hs'].
Qed.

Lemma cancel_during_sampling_no_cleanup_witness :
  w_iteration w0 = None /\ w_cancelled_at w0 = None /\
  w_cancelled_at (monitor_fight "c1" "f1" (with_cancel (env0 true None) (Some 5%nat)) w0).2
    = Some (Some 0%nat) /\
  count_calls is_cleanup_fight
    (w_trace (cancel_during_monitor "c1" "f1" 5%nat (env0 true None) w0).2)
    = count_calls is_cleanup_fight (w_trace w0).
Proof.
  split; [reflexivity|]. split; [reflexivity|]. split; [vm_compute; reflexivity|].
  apply (cancel_during_sampling_no_cleanup "c1" "f1" (env0 true None) w0 5 0
           eq_refl eq_refl ltac:(vm_compute; reflexivity)).
Defined.

(* ------------------------------------------------------------------ *)
(** ** Starting a fight ([start_fight]) *)

(** C10: [start_fight] calls [Fight(...)] without the required field
    [ended_at], so the validation always raises; the error is caught and
    [start_fight] never returns [True], creates no fight document and
    schedules no monitoring task.  On the challenge "c1" whose machine is
    in FIGHT_TYPE_SELECTED, it returns [False] after having moved the
    machine to PARTICIPANTS_JOINING. *)
Theorem start_fight_never_creates (cid : string) (e : Env) (w : World) :
  (let '(r, w') := start_fight cid e w in
   r <> Ok true /\ w_fights w' = w_fights w /\ w_fight_tasks w' = w_fight_tasks w) /\
  (start_fight "c1" (env0 true None) w_selected).1 = Ok false /\
  option_map current_state
    (w_active (start_fight "c1" (env0 true None) w_selected).2 !! "c1")
    = Some PARTICIPANTS_JOINING.
Proof.
  split; [|vm_compute; split; reflexivity].
  unfold start_fight, try_except, get_challenge, await_, has_entry, gets,
    transition_entry.
  unfold mbind, M_bind.
  cbn. destruct (cancel_now e w); cbn; [repeat split; discriminate|].
  repeat (sym_step; cbn);
    try (destruct (ch_fight_type _); cbn);
    repeat split; first [discriminate | reflexivity].
Qed.

(* ================================================================== *)
(** * Further properties of the modules *)

(* ------------------------------------------------------------------ *)
(** ** ChallengeStateMachine *)

Lemma transition_to_shape (now : Z) (sm : StateMachine) (t : ChallengeState) :
  ((t ∈ VALID_TRANSITIONS (current_state sm)) /\
   transition_to now sm t = (true, mkStateMachine t (state_history sm ++ [(t, now)]))) \/
  ((t ∉ VALID_TRANSITIONS (current_state sm)) /\ transition_to now sm t = (false, sm)).
Proof.
  destruct (decide (t ∈ VALID_TRANSITIONS (current_state sm))) as [Ht|Ht].
  - left. split; [exact Ht|]. destruct sm as [s h]. apply transition_to_accepts, Ht.
  - right. split; [exact Ht|]. apply transition_to_rejects, Ht.
Qed.

(** X1: a machine is in a terminal state exactly when no call of
    [transition_to], at any time and to any state, succeeds on it. *)
Theorem terminal_iff_no_transition (sm : StateMachine) :
  is_terminal_state sm = true <->
  forall (now : Z) (t : ChallengeState), (transition_to now sm t).1 = false.
Proof.
  split.
  - intros Hterm now t. unfold is_terminal_state in Hterm.
    rewrite transition_to_rejects; [reflexivity|].
    destruct (VALID_TRANSITIONS (current_state sm)); [apply not_elem_of_nil | discriminate].
  - intros H. specialize (H 0 CANCELLED). destruct sm as [s h].
    destruct s; try reflexivity;
      rewrite transition_to_accepts in H by (cbn; set_solver); discriminate.
Qed.

(** X2: [is_active] holds exactly in the states other than CREATED that
    are not terminal. *)
Theorem is_active_iff (sm : StateMachine) :
  is_active sm = true <->
  current_state sm <> CREATED /\ is_terminal_state sm = false.
Proof.
  unfold is_active, is_terminal_state.
  destruct (current_state sm); vm_compute; intuition congruence.
Qed.

(** reachable machines *)
Lemma run_transitions_app sm c1 c2 :
  run_transitions sm (c1 ++ c2) = run_transitions (run_transitions sm c1) c2.
Proof. revert sm; induction c1 as [|[n t] c1 IH]; intros sm; [reflexivity|]. apply IH. Qed.

Lemma hist_ok_step now sm t : hist_ok sm -> hist_ok (transition_to now sm t).2.
Proof.
  intros [[tl Hl] Hp].
  destruct (transition_to_shape now sm t) as [[Ht ->]|[_ ->]]; [|split; [eexists; exact Hl|exact Hp]].
  unfold hist_ok; simpl. split.
  - exists now. rewrite last_snoc. reflexivity.
  - intros i a ta b tb Hi Hsi.
    assert (Hlen : (S i < length (state_history sm ++ [(t, now)]))%nat)
      by (apply lookup_lt_Some in Hsi; exact Hsi).
    rewrite length_app in Hlen; cbn in Hlen.
    destruct (decide (S i < length (state_history sm)))%nat as [Hlt|Hge].
    + rewrite lookup_app_l in Hi by lia. rewrite lookup_app_l in Hsi by lia. eauto.
    + assert (S i = length (state_history sm)) as Heq by lia.
      rewrite lookup_app_l in Hi by lia.
      rewrite lookup_app_r in Hsi by lia. rewrite Heq, Nat.sub_diag in Hsi.
      cbn in Hsi. injection Hsi as <- <-.
      rewrite last_lookup in Hl.
      replace (pred (length (state_history sm))) with i in Hl by lia.
      rewrite Hi in Hl. injection Hl as -> _. exact Ht.
Qed.

Lemma run_transitions_head sm calls p h :
  state_history sm = p :: h -> head (state_history (run_transitions sm calls)) = Some p.
Proof.
  revert sm h; induction calls as [|[n t] calls IH]; intros sm h Eh; cbn [run_transitions].
  - rewrite Eh. reflexivity.
  - destruct (transition_to_shape n sm t) as [[_ ->]|[_ ->]]; [|exact (IH _ _ Eh)].
    apply (IH _ (h ++ [(t, n)])). simpl. rewrite Eh. reflexivity.
Qed.

(** X3: along any sequence of [transition_to] calls on a new machine, the
    history starts with the initial entry, its last entry is the current
    state, and each two consecutive entries are an edge of
    [VALID_TRANSITIONS]. *)
Theorem history_invariant (s0 : ChallengeState) (t0 : Z) (calls : list (Z * ChallengeState)) :
  let sm := run_transitions (new_state_machine s0 t0) calls in
  head (state_history sm) = Some (s0, t0) /\
  (exists t, last (state_history sm) = Some (current_state sm, t)) /\
  (forall i a ta b tb, state_history sm !! i = Some (a, ta) ->
     state_history sm !! S i = Some (b, tb) -> b ∈ VALID_TRANSITIONS a).
Proof.
  cbn zeta. split.
  - apply (run_transitions_head _ _ _ []). reflexivity.
  - enough (hist_ok (run_transitions (new_state_machine s0 t0) calls)) as [? ?] by auto.
    assert (H0 : hist_ok (new_state_machine s0 t0)).
    { split; [exists t0; reflexivity|].
      intros i a ta b tb _ Hs. destruct i; discriminate. }
    revert H0. generalize (new_state_machine s0 t0).
    induction calls as [|[n t] calls IH]; intros sm H0; [exact H0|].
    apply IH, hist_ok_step, H0.
Qed.

Lemma VALID_TRANSITIONS_rank s t :
  t ∈ VALID_TRANSITIONS s -> (state_rank s < state_rank t)%nat.
Proof. destruct s; cbn; intros Ht; repeat (apply elem_of_cons in Ht as [->|Ht]; [cbn; lia|]); set_solver. Qed.

Lemma rank_sorted_step now sm t : rank_sorted sm -> rank_sorted (transition_to now sm t).2.
Proof.
  intros [Hs Hf].
  destruct (transition_to_shape now sm t) as [[Ht ->]|[_ ->]]; [|split; assumption].
  apply VALID_TRANSITIONS_rank in Ht. unfold rank_sorted; simpl. split.
  - apply StronglySorted_app_2; [|exact Hs|repeat constructor].
    intros x y Hx Hy. apply list_elem_of_singleton in Hy; subst y.
    simpl. rewrite Forall_forall in Hf. specialize (Hf x Hx). lia.
  - apply Forall_app; split; [|repeat constructor; cbn; lia].
    eapply Forall_impl; [exact Hf|]. intros x Hx; cbn in *; lia.
Qed.

Lemma sorted_ranks_nodup (h : list (ChallengeState * Z)) :
  StronglySorted (fun a b => state_rank a.1 < state_rank b.1)%nat h ->
  List.NoDup (map (fun p => state_rank p.1) h).
Proof.
  induction 1 as [|x l Hs IH Hf]; simpl; constructor; [|exact IH].
  intros Hin. apply in_map_iff in Hin as (y & Hxy & Hy).
  rewrite Forall_forall in Hf. specialize (Hf y (proj2 (list_elem_of_In _ _) Hy)). lia.
Qed.

(** X4: along any sequence of [transition_to] calls on a new machine, no
    state occurs twice in the history, which has at most seven entries. *)
Theorem history_no_repeat (s0 : ChallengeState) (t0 : Z) (calls : list (Z * ChallengeState)) :
  let h := state_history (run_transitions (new_state_machine s0 t0) calls) in
  NoDup (map fst h) /\ (length h <= 7)%nat.
Proof.
  cbn zeta.
  assert (Hr : rank_sorted (run_transitions (new_state_machine s0 t0) calls)).
  { assert (H0 : rank_sorted (new_state_machine s0 t0))
      by (split; repeat constructor; cbn; lia).
    revert H0. generalize (new_state_machine s0 t0).
    induction calls as [|[n t] calls IH]; intros sm H0; [exact H0|].
    apply IH, rank_sorted_step, H0. }
  destruct Hr as [Hs _]. apply sorted_ranks_nodup in Hs.
  set (h := state_history _) in *. split.
  - apply NoDup_ListNoDup, (List.NoDup_map_inv state_rank). rewrite map_map. exact Hs.
  - rewrite <- (length_map (fun p : ChallengeState * Z => state_rank p.1) h).
    change 7%nat with (length (seq 0 7)).
    apply NoDup_incl_length; [exact Hs|].
    intros r Hr. apply in_map_iff in Hr as ([s t] & <- & _).
    apply in_seq. destruct s; cbn; lia.
Qed.

(** X5: [get_total_duration] of a machine created at [t0] is the number of
    whole seconds since [t0], whatever transitions were made since. *)
Theorem total_duration_from_creation (s0 : ChallengeState) (t0 : Z)
    (calls : list (Z * ChallengeState)) (now : Z) :
  get_total_duration now (run_transitions (new_state_machine s0 t0) calls) =
  Z.quot (now - t0) 1000000.
Proof.
  unfold get_total_duration.
  rewrite (run_transitions_head _ _ (s0, t0) []) by reflexivity. reflexivity.
Qed.

(** X6: after a successful [transition_to] at time [t],
    [get_time_in_state] counts from [t]; after a rejected one it is the
    same as before. *)
Theorem time_in_state_after_transition (now t : Z) (sm : StateMachine) (s : ChallengeState) :
  get_time_in_state now (transition_to t sm s).2 =
  if (transition_to t sm s).1 then Z.quot (now - t) 1000000 else get_time_in_state now sm.
Proof.
  destruct (transition_to_shape t sm s) as [[_ ->]|[_ ->]]; [|reflexivity].
  unfold get_time_in_state; simpl. rewrite last_snoc. reflexivity.
Qed.

(** X7: [from_state_string] of the value of a state gives a new machine in
    that state. *)
Theorem from_state_string_value (s : ChallengeState) (now : Z) :
  from_state_string (state_value s) now = new_state_machine s now.
Proof. destruct s; reflexivity. Qed.

(** X8: [from_state_string] of a string that is the value of no state (for
    instance the upper-case name "SENT") gives a new machine in CREATED. *)
Theorem from_state_string_invalid (v : string) (now : Z) :
  (forall s, state_value s <> v) ->
  from_state_string v now = new_state_machine CREATED now.
Proof.
  intros Hv. unfold from_state_string, ChallengeState_of_value.
  assert (filter (fun s => state_value s = v) all_states = []) as ->.
  { generalize all_states. intros l. induction l as [|s l IH]; [reflexivity|].
    rewrite filter_cons_False by apply Hv. exact IH. }
  reflexivity.
Qed.

Lemma from_state_string_invalid_witness :
  (forall s, state_value s <> "SENT"%string) /\
  from_state_string "SENT" 0 = new_state_machine CREATED 0.
Proof.
  assert (H : forall s, state_value s <> "SENT"%string) by (intros []; discriminate).
  split; [exact H | exact (from_state_string_invalid "SENT" 0 H)].
Defined.

(* ------------------------------------------------------------------ *)
(** ** WinnerDetector *)

Lemma Qabs_cases (x : Q) :
  ((0 <= x)%Q /\ (Qabs x == x)%Q) \/ ((x <= 0)%Q /\ (Qabs x == - x)%Q).
Proof.
  destruct (Qlt_le_dec x 0) as [H|H].
  - right. split; [lra|]. apply Qabs_neg. lra.
  - left. split; [lra|]. apply Qabs_pos. lra.
Qed.

Ltac qcmp_tac :=
  repeat match goal with
  | H : Qltb _ _ = true |- _ => apply Qltb_iff in H
  | H : Qltb _ _ = false |- _ => apply Qltb_false in H
  | H : Qgtb _ _ = true |- _ => apply Qgtb_iff in H
  | H : Qgtb _ _ = false |- _ => apply Qgtb_false in H
  | H : Qeq_bool _ _ = true |- _ => apply Qeq_bool_iff in H
  | H : Qeq_bool _ _ = false |- _ => apply Qeq_bool_neq in H
  end.

Ltac swap_cases a b d :=
  destruct (Qabs_cases (a - b)) as [[? ?]|[? ?]];
  destruct (Qabs_cases (b - a)) as [[? ?]|[? ?]];
  destruct (Qltb (Qabs (a - b)) d) eqn:?, (Qltb (Qabs (b - a)) d) eqn:?,
    (Qgtb a b) eqn:?, (Qgtb b a) eqn:?; try reflexivity; qcmp_tac; exfalso; lra.

(** X9: for a positive volume threshold, exchanging the two participants'
    metrics exchanges the outcome of [determine_winner]: winner 1 and
    winner 2 swap with their results, a draw stays a draw. *)
Theorem determine_winner_swap (thr : Q) (ft : option FightType) (p1 p2 : Metrics) :
  (0 < thr)%Q ->
  determine_winner thr ft p2 p1 = mirror_outcome (determine_winner thr ft p1 p2).
Proof.
  intros Hthr. destruct ft as [[|]|]; simpl; [| |reflexivity].
  - unfold analyze_timing_fight, analyze_timing_fight_body.
    destruct (num (py_get p1 "total_join_time" (PyNum 0))) as [a|];
    destruct (num (py_get p2 "total_join_time" (PyNum 0))) as [b|];
      cbn [mbind option_bind]; try reflexivity.
    swap_cases a b 5%Q.
  - unfold analyze_volume_fight.
    swap_cases (calculate_activity_score p1) (calculate_activity_score p2) thr.
Qed.

Lemma determine_winner_swap_witness :
  (0 < 1 # 10)%Q /\
  determine_winner (1 # 10) (Some VOLUME) bag_B bag_A =
  mirror_outcome (determine_winner (1 # 10) (Some VOLUME) bag_A bag_B).
Proof.
  assert (H : (0 < 1 # 10)%Q) by reflexivity.
  split; [exact H | exact (determine_winner_swap (1 # 10) (Some VOLUME) bag_A bag_B H)].
Defined.

(** X10: with a volume threshold of at most 0, a volume contest between
    two equal activity scores is won by participant 2, in either order. *)
Theorem volume_tie_participant2 (thr : Q) (p1 p2 : Metrics) :
  (thr <= 0)%Q ->
  (calculate_activity_score p1 == calculate_activity_score p2)%Q ->
  determine_winner thr (Some VOLUME) p1 p2 = (Some 2%nat, LOSS, WIN) /\
  determine_winner thr (Some VOLUME) p2 p1 = (Some 2%nat, LOSS, WIN).
Proof.
  intros Hthr Heq. simpl. unfold analyze_volume_fight.
  pose proof (Qabs_nonneg (calculate_activity_score p1 - calculate_activity_score p2)).
  pose proof (Qabs_nonneg (calculate_activity_score p2 - calculate_activity_score p1)).
  destruct (Qltb (Qabs (calculate_activity_score p1 - calculate_activity_score p2)) thr) eqn:E1,
    (Qltb (Qabs (calculate_activity_score p2 - calculate_activity_score p1)) thr) eqn:E2,
    (Qgtb (calculate_activity_score p1) (calculate_activity_score p2)) eqn:E3,
    (Qgtb (calculate_activity_score p2) (calculate_activity_score p1)) eqn:E4;
    try (split; reflexivity); qcmp_tac; exfalso; lra.
Qed.

Lemma volume_tie_participant2_witness :
  (0 <= 0)%Q /\ (calculate_activity_score bag_A == calculate_activity_score bag_A)%Q /\
  determine_winner 0 (Some VOLUME) bag_A bag_A = (Some 2%nat, LOSS, WIN).
Proof.
  assert (H1 : (0 <= 0)%Q) by (vm_compute; discriminate).
  assert (H2 : (calculate_activity_score bag_A == calculate_activity_score bag_A)%Q)
    by reflexivity.
  split; [exact H1|split; [exact H2|]].
  exact (proj1 (volume_tie_participant2 0 bag_A bag_A H1 H2)).
Defined.

(** The balance of [analyze_fight_quality] never raises. *)
Lemma fight_quality_balance (a b : Q) :
  exists bal,
    (if Qgtb (a + b) 0 then
       if Qeq_bool (py_max a b) 0 then None else Some (py_min a b / py_max a b)%Q
     else Some (1 # 2)) = Some bal.
Proof.
  destruct (Qgtb (a + b) 0) eqn:E; [|eauto].
  destruct (Qeq_bool (py_max a b) 0) eqn:E2; [|eauto]. exfalso.
  unfold py_max in E2. destruct (Qgtb b a) eqn:E3; qcmp_tac; lra.
Qed.

(** X11: [analyze_fight_quality] ends in its except branch (the
    'unknown' result) exactly when one of the two speak_time values is
    present and not a number. *)
Theorem fight_quality_unknown_iff (p1 p2 : Metrics) :
  analyze_fight_quality p1 p2 = None <->
  py_get p1 "speak_time" (PyNum 0) = PyBad \/ py_get p2 "speak_time" (PyNum 0) = PyBad.
Proof.
  unfold analyze_fight_quality.
  destruct (fight_quality_balance (calculate_activity_score p1) (calculate_activity_score p2))
    as [bal Hbal].
  destruct (Qgtb (calculate_activity_score p1 + calculate_activity_score p2) (3 # 2)),
    (Qgtb (calculate_activity_score p1 + calculate_activity_score p2) 1);
  cbv iota beta; rewrite Hbal; cbn [mbind option_bind];
  destruct (py_get p1 "speak_time" (PyNum 0)), (py_get p2 "speak_time" (PyNum 0));
  cbn [num mbind option_bind]; intuition discriminate.
Qed.

Lemma ratio_facts (d t : Q) :
  (0 < t)%Q -> (0 <= d)%Q ->
  (0 <= d / t)%Q /\
  ((1 # 2) * t <= d -> 1 # 2 <= d / t)%Q /\
  (d < (1 # 2) * t -> d / t < 1 # 2)%Q /\
  (d <= t -> d / t <= 1)%Q.
Proof.
  intros Ht Hd. split; [|split; [|split]].
  - apply Qle_shift_div_l; [exact Ht|]. lra.
  - intros H. apply Qle_shift_div_l; [exact Ht|]. lra.
  - intros H. apply Qlt_shift_div_r; [exact Ht|]. lra.
  - intros H. apply Qle_shift_div_r; [exact Ht|]. lra.
Qed.

Lemma fight_quality_balance_range (a b bal : Q) :
  (0 <= a)%Q -> (0 <= b)%Q ->
  (if Qgtb (a + b) 0 then
     if Qeq_bool (py_max a b) 0 then None else Some (py_min a b / py_max a b)%Q
   else Some (1 # 2)) = Some bal ->
  (0 <= bal <= 1)%Q.
Proof.
  intros Ha Hb.
  destruct (Qgtb (a + b) 0) eqn:E; [|intros [= <-]; lra].
  destruct (Qeq_bool (py_max a b) 0) eqn:E2; [discriminate|]. intros [= <-].
  qcmp_tac. unfold py_min, py_max in *.
  destruct (Qgtb b a) eqn:E3, (Qltb b a) eqn:E4; qcmp_tac;
    match goal with |- (0 <= ?x / ?y <= 1)%Q =>
      destruct (ratio_facts x y) as (H1 & _ & _ & H4); [lra|lra|split; [exact H1|apply H4; lra]]
    end.
Qed.

(** X12: when both activity scores are nonnegative, the balance rating of
    [analyze_fight_quality] is between 0 and 1. *)
Theorem fight_quality_balance_bounds (p1 p2 : Metrics) (q : FightQuality) :
  (0 <= calculate_activity_score p1)%Q -> (0 <= calculate_activity_score p2)%Q ->
  analyze_fight_quality p1 p2 = Some q ->
  (0 <= balance_rating q <= 1)%Q.
Proof.
  intros Ha Hb. unfold analyze_fight_quality.
  destruct (fight_quality_balance (calculate_activity_score p1) (calculate_activity_score p2))
    as [bal Hbal].
  pose proof (fight_quality_balance_range _ _ _ Ha Hb Hbal) as Hr.
  destruct (Qgtb (calculate_activity_score p1 + calculate_activity_score p2) (3 # 2)),
    (Qgtb (calculate_activity_score p1 + calculate_activity_score p2) 1);
  cbv iota beta; rewrite Hbal; cbn [mbind option_bind];
  destruct (py_get p1 "speak_time" (PyNum 0)), (py_get p2 "speak_time" (PyNum 0));
  cbn [num mbind option_bind]; intros Hq; try discriminate;
  injection Hq as <-; exact Hr.
Qed.

Lemma fight_quality_balance_bounds_witness :
  (0 <= calculate_activity_score bag_A)%Q /\ (0 <= calculate_activity_score bag_B)%Q /\
  exists q, analyze_fight_quality bag_A bag_B = Some q /\ (0 <= balance_rating q <= 1)%Q.
Proof.
  assert (H1 : (0 <= calculate_activity_score bag_A)%Q) by (vm_compute; discriminate).
  assert (H2 : (0 <= calculate_activity_score bag_B)%Q) by (vm_compute; discriminate).
  assert (H3 : analyze_fight_quality bag_A bag_B = Some (mkFightQuality "fair" "low"
            (528000000000000 # 1800000000000000) [])) by (vm_compute; reflexivity).
  split; [exact H1|split; [exact H2|]].
  eexists. split; [exact H3|].
  exact (fight_quality_balance_bounds bag_A bag_B _ H1 H2 H3).
Defined.

(** X13: when both activity scores are nonnegative, [get_winner_confidence]
    is between 0 and 1. *)
Theorem winner_confidence_bounds (w : option nat) (p1 p2 : Metrics) :
  (0 <= calculate_activity_score p1)%Q -> (0 <= calculate_activity_score p2)%Q ->
  (0 <= get_winner_confidence w p1 p2 <= 1)%Q.
Proof.
  intros Ha Hb. unfold get_winner_confidence.
  destruct w as [n|]; [|lra].
  set (a := calculate_activity_score p1) in *. set (b := calculate_activity_score p2) in *.
  destruct (Qeq_bool (a + b) 0) eqn:E; [lra|]. qcmp_tac.
  assert (Ht : (0 < a + b)%Q) 
    by (destruct (Qlt_le_dec 0 (a + b)) as [H|H]; [exact H|exfalso; apply E; apply Qle_antisym; lra]).
  pose proof (Qabs_nonneg (a - b)) as Hd.
  destruct (ratio_facts (Qabs (a - b)) (a + b) Ht Hd) as (H1 & _ & _ & _).
  set (y := (Qabs (a - b) / (a + b))%Q) in *.
  unfold py_min. destruct (Qltb 1 (y * 2)%Q) eqn:E2; qcmp_tac; lra.
Qed.

Lemma winner_confidence_bounds_witness :
  (0 <= calculate_activity_score bag_A)%Q /\ (0 <= calculate_activity_score bag_B)%Q /\
  (0 <= get_winner_confidence (Some 1%nat) bag_A bag_B <= 1)%Q.
Proof.
  assert (H1 : (0 <= calculate_activity_score bag_A)%Q) by (vm_compute; discriminate).
  assert (H2 : (0 <= calculate_activity_score bag_B)%Q) by (vm_compute; discriminate).
  split; [exact H1|split; [exact H2|]].
  exact (winner_confidence_bounds (Some 1%nat) bag_A bag_B H1 H2).
Defined.

(** X14: when both activity scores are nonnegative with a positive sum and
    there is a winner, [get_winner_confidence] is 1 exactly when one score
    is at least three times the other. *)
Theorem winner_confidence_full (n : nat) (p1 p2 : Metrics) :
  (0 <= calculate_activity_score p1)%Q -> (0 <= calculate_activity_score p2)%Q ->
  (0 < calculate_activity_score p1 + calculate_activity_score p2)%Q ->
  ((get_winner_confidence (Some n) p1 p2 == 1)%Q <->
   (3 * calculate_activity_score p2 <= calculate_activity_score p1)%Q \/
   (3 * calculate_activity_score p1 <= calculate_activity_score p2)%Q).
Proof.
  intros Ha Hb Ht. unfold get_winner_confidence.
  set (a := calculate_activity_score p1) in *. set (b := calculate_activity_score p2) in *.
  destruct (Qeq_bool (a + b) 0) eqn:E; qcmp_tac; [lra|].
  pose proof (Qabs_nonneg (a - b)) as Hd.
  destruct (ratio_facts (Qabs (a - b)) (a + b) Ht Hd) as (H1 & H2 & H3 & _).
  set (y := (Qabs (a - b) / (a + b))%Q) in *.
  destruct (Qabs_cases (a - b)) as [[Hs Habs]|[Hs Habs]];
  unfold py_min; destruct (Qltb 1 (y * 2)%Q) eqn:E2; qcmp_tac;
  (split; [intros Hc|intros [Hc|Hc]]);
  solve [lra
        | destruct (Qlt_le_dec (Qabs (a - b)) ((1 # 2) * (a + b))) as [Hl|Hl];
            [specialize (H3 Hl)|specialize (H2 Hl)]; lra].
Qed.

Lemma winner_confidence_full_witness :
  (0 <= calculate_activity_score bag_A)%Q /\ (0 <= calculate_activity_score bag_no_presence)%Q /\
  (0 < calculate_activity_score bag_A + calculate_activity_score bag_no_presence)%Q /\
  ((get_winner_confidence (Some 1%nat) bag_A bag_no_presence == 1)%Q <->
   (3 * calculate_activity_score bag_no_presence <= calculate_activity_score bag_A)%Q \/
   (3 * calculate_activity_score bag_A <= calculate_activity_score bag_no_presence)%Q).
Proof.
  assert (H1 : (0 <= calculate_activity_score bag_A)%Q) by (vm_compute; discriminate).
  assert (H2 : (0 <= calculate_activity_score bag_no_presence)%Q) by (vm_compute; discriminate).
  assert (H3 : (0 < calculate_activity_score bag_A + calculate_activity_score bag_no_presence)%Q)
    by (vm_compute; reflexivity).
  split; [exact H1|split; [exact H2|split; [exact H3|]]].
  exact (winner_confidence_full 1 bag_A bag_no_presence H1 H2 H3).
Defined.

(* ------------------------------------------------------------------ *)
(** ** ChallengeManager and ChallengeOps *)

Lemma get_pending_run opp e w :
  env_cancel_at e = None ->
  get_pending_challenges opp e w =
    (Ok (filter (pending_for (w_clock w) opp) (map snd (map_to_list (w_challenges w)))),
     log_event (EvGetPending opp) (bump_awaits w)).
Proof. intros Hc. unfold get_pending_challenges. rewrite await_run by exact Hc. reflexivity. Qed.

Lemma elem_of_pending (now opp : Z) (cs : gmap string ChallengeRec) (c : ChallengeRec) :
  c ∈ filter (pending_for now opp) (map snd (map_to_list cs)) <->
  pending_for now opp c /\ exists k, cs !! k = Some c.
Proof.
  rewrite list_elem_of_filter, list_elem_of_In, in_map_iff.
  split; intros [Hp Hk]; split; try exact Hp.
  - destruct Hk as ([k c'] & <- & Hin). exists k. cbn.
    apply elem_of_map_to_list, list_elem_of_In, Hin.
  - destruct Hk as (k & Hk). exists (k, c). split; [reflexivity|].
    apply list_elem_of_In, elem_of_map_to_list, Hk.
Qed.

(** X15: [create_challenge] returns [None] and creates nothing when the
    opponent already has a pending, unexpired challenge from the same
    challenger; it only reads the pending challenges. *)
Theorem create_challenge_duplicate (e : Env) (w : World) (challenger_id opponent_id : Z)
    (k : string) (c : ChallengeRec) :
  env_cancel_at e = None ->
  w_challenges w !! k = Some c ->
  ch_challenger_id c = challenger_id -> ch_opponent_id c = opponent_id ->
  ch_status c = PENDING -> w_clock w < ch_expires_at c ->
  create_challenge challenger_id opponent_id e w =
    (Ok None, log_event (EvGetPending opponent_id) (bump_awaits w)).
Proof.
  intros Hc Hk H1 H2 H3 H4. unfold create_challenge, try_except.
  rewrite bind_run, get_pending_run by exact Hc.
  rewrite bool_decide_true; [reflexivity|].
  apply Exists_exists. exists c. split; [|exact H1].
  apply elem_of_pending. split; [|exists k; exact Hk].
  unfold pending_for. cbn. auto.
Qed.

Lemma create_challenge_duplicate_witness :
  env_cancel_at (quiet_env cfg0) = None /\
  w_challenges w_pending !! "c1" = Some ch_pending /\
  create_challenge 1 2 (quiet_env cfg0) w_pending =
    (Ok None, log_event (EvGetPending 2) (bump_awaits w_pending)).
Proof.
  assert (H1 : env_cancel_at (quiet_env cfg0) = None) by reflexivity.
  assert (H2 : w_challenges w_pending !! "c1" = Some ch_pending) by reflexivity.
  split; [exact H1|split; [exact H2|]].
  exact (create_challenge_duplicate (quiet_env cfg0) w_pending 1 2 "c1" ch_pending H1 H2
           eq_refl eq_refl eq_refl ltac:(vm_compute; reflexivity)).
Defined.

(** X16: without such a challenge, [create_challenge] inserts a PENDING
    document under an id no document has, expiring at now plus twice
    challenge_timeout, and adds a machine in SENT with history CREATED,
    SENT to the table; fights, users, tasks and the clock are unchanged. *)
Theorem create_challenge_new (e : Env) (w : World) (challenger_id opponent_id : Z) :
  env_cancel_at e = None ->
  (forall k c, w_challenges w !! k = Some c -> pending_for (w_clock w) opponent_id c ->
     ch_challenger_id c <> challenger_id) ->
  exists cid w',
    create_challenge challenger_id opponent_id e w = (Ok (Some cid), w') /\
    w_challenges w !! cid = None /\
    w_challenges w' =
      <[cid := mkChallenge challenger_id opponent_id None PENDING
                 (w_clock w + challenge_timeout (env_config e) * 2 * 1000000)]>
        (w_challenges w) /\
    w_active w' =
      <[cid := mkStateMachine SENT [(CREATED, w_clock w); (SENT, w_clock w)]]> (w_active w) /\
    w_fight_tasks w' = w_fight_tasks w /\ w_fights w' = w_fights w /\
    w_users w' = w_users w /\ w_clock w' = w_clock w.
Proof.
  intros Hc Hnew. unfold create_challenge, try_except.
  rewrite bind_run, get_pending_run by exact Hc.
  rewrite bool_decide_false.
  2:{ intros HE. apply Exists_exists in HE as (c & Hin & Hch).
      apply elem_of_pending in Hin as [Hp [k Hk]]. exact (Hnew k c Hk Hp Hch). }
  set (w1 := log_event (EvGetPending opponent_id) (bump_awaits w)).
  rewrite !bind_run. cbn [gets asks].
  rewrite bind_run. cbn [asks]. rewrite bind_run. unfold ops_create_challenge. rewrite await_run by exact Hc.
  cbn [fst snd].
  eexists _, _. split; [reflexivity|].
  cbn. split; [apply not_elem_of_dom, is_fresh|].
  repeat split; reflexivity.
Qed.

Lemma create_challenge_new_witness :
  env_cancel_at (quiet_env cfg0) = None /\
  (forall k c, w_challenges w_pending !! k = Some c -> pending_for (w_clock w_pending) 2 c ->
     ch_challenger_id c <> 3) /\
  exists cid w', create_challenge 3 2 (quiet_env cfg0) w_pending = (Ok (Some cid), w').
Proof.
  assert (H1 : env_cancel_at (quiet_env cfg0) = None) by reflexivity.
  assert (H2 : forall k c, w_challenges w_pending !! k = Some c ->
                 pending_for (w_clock w_pending) 2 c -> ch_challenger_id c <> 3).
  { intros k c Hk _. cbn in Hk. apply lookup_singleton_Some in Hk as [_ <-]. discriminate. }
  split; [exact H1|split; [exact H2|]].
  destruct (create_challenge_new (quiet_env cfg0) w_pending 3 2 H1 H2)
    as (cid & w' & Hr & _). exists cid, w'. exact Hr.
Defined.

(** X17: [cancel_challenge] returns [True]: it drops the challenge's fight
    task and machine and marks its document CANCELLED when there is one;
    fights and users are unchanged. *)
Theorem cancel_challenge_run (e : Env) (w : World) (cid : string) :
  env_cancel_at e = None ->
  exists w', cancel_challenge cid e w = (Ok true, w') /\
    w_fight_tasks w' = w_fight_tasks w ∖ {[cid]} /\
    w_active w' = delete cid (w_active w) /\
    w_challenges w' = alter (with_status CS_CANCELLED) cid (w_challenges w) /\
    w_fights w' = w_fights w /\ w_users w' = w_users w.
Proof.
  intros Hc. unfold cancel_challenge, try_except.
  rewrite bind_run. cbn [modify].
  rewrite bind_run.
  destruct (update_challenge_status_run cid CS_CANCELLED e
     (set_fight_tasks (w_fight_tasks w ∖ {[cid]}) w) Hc) as [b ->].
  rewrite bind_run.
  match goal with |- context [finish_entry cid CANCELLED e ?w1] =>
    destruct (finish_entry_run cid CANCELLED e w1) as (w2 & -> & Ha & Hd & Hf & Hu & Ht & _)
  end.
  eexists. split; [reflexivity|].
  rewrite Ha, Hd, Hf, Hu, Ht. cbn. auto.
Qed.

Lemma cancel_challenge_run_witness :
  env_cancel_at (quiet_env cfg0) = None /\
  exists w', cancel_challenge "c1" (quiet_env cfg0) w0 = (Ok true, w') /\
    w_active w' = delete "c1" (w_active w0).
Proof.
  assert (H1 : env_cancel_at (quiet_env cfg0) = None) by reflexivity.
  split; [exact H1|].
  destruct (cancel_challenge_run (quiet_env cfg0) w0 "c1" H1) as (w' & Hr & _ & Ha & _).
  exists w'. split; [exact Hr|exact Ha].
Defined.

(** X18: [_end_fight_error] finishes the fight document as cancelled with no
    winner, marks the challenge CANCELLED, drops the machine, stops the
    recording once and does not release the userbots; users are unchanged. *)
Theorem end_fight_error_run (e : Env) (w : World) (cid fid : string) :
  env_cancel_at e = None ->
  exists w', end_fight_error cid fid e w = (Ok tt, w') /\
    w_fights w' =
      alter (fun f => mkFight (f_challenge_id f) (f_participant1_id f)
                        (f_participant2_id f) (f_fight_type f) (f_duration f)
                        None FR_CANCELLED FR_CANCELLED (f_participant1_metrics f)
                        (f_participant2_metrics f) (f_group_call_id f)
                        (f_started_at f) (w_clock w)) fid (w_fights w) /\
    w_challenges w' = alter (with_status CS_CANCELLED) cid (w_challenges w) /\
    w_active w' = delete cid (w_active w) /\ w_users w' = w_users w /\
    count_calls is_stop_recording (w_trace w') =
      S (count_calls is_stop_recording (w_trace w)) /\
    count_calls is_cleanup_fight (w_trace w') = count_calls is_cleanup_fight (w_trace w).
Proof. exact (end_fight_error_effects e w cid fid). Qed.

Lemma end_fight_error_run_witness :
  env_cancel_at (quiet_env cfg0) = None /\
  exists w', end_fight_error "c1" "f1" (quiet_env cfg0) w0 = (Ok tt, w') /\
    w_active w' = delete "c1" (w_active w0).
Proof.
  assert (H1 : env_cancel_at (quiet_env cfg0) = None) by reflexivity.
  split; [exact H1|].
  destruct (end_fight_error_run (quiet_env cfg0) w0 "c1" "f1" H1)
    as (w' & Hr & _ & _ & Ha & _). exists w'. split; [exact Hr|exact Ha].
Defined.

(** X19: [ChallengeOps.expire_old_challenges] returns the number of
    documents whose status it changed; it changes nothing but statuses,
    adds no document, and leaves no PENDING document past its expiry. *)
Theorem expire_db_challenges_count (e : Env) (w : World) :
  env_cancel_at e = None ->
  exists n w', expire_db_challenges e w = (Ok n, w') /\
    n = Z.of_nat (size (filter (fun kv => ch_status <$> w_challenges w' !! kv.1 <>
                                          Some (ch_status kv.2)) (w_challenges w))) /\
    (forall k c, w_challenges w !! k = Some c ->
       exists st, w_challenges w' !! k = Some (with_status st c)) /\
    (forall k, w_challenges w !! k = None -> w_challenges w' !! k = None) /\
    (forall k c, w_challenges w' !! k = Some c ->
       ~ (ch_status c = PENDING /\ ch_expires_at c < w_clock w')).
Proof.
  intros Hc. unfold expire_db_challenges. rewrite await_run by exact Hc.
  eexists _, _. split; [reflexivity|].
  cbn [fst snd w_challenges w_clock set_challenges log_event bump_awaits].
  set (m := w_challenges w). set (now := w_clock w).
  split; [|split; [|split]].
  - f_equal. f_equal. apply map_filter_ext. intros i x Hx. cbn [fst snd].
    rewrite lookup_fmap, Hx. cbn.
    case_bool_decide as Hs; cbn; split.
    + intros _. destruct Hs as [Hs _]. rewrite Hs. discriminate.
    + reflexivity.
    + discriminate.
    + intros H. exfalso. apply H. reflexivity.
  - intros k c Hk. rewrite lookup_fmap, Hk. cbn.
    case_bool_decide; [exists CS_EXPIRED; reflexivity|].
    exists (ch_status c). destruct c; reflexivity.
  - intros k Hk. rewrite lookup_fmap, Hk. reflexivity.
  - intros k c Hk. rewrite lookup_fmap in Hk.
    destruct (m !! k) as [c0|] eqn:E; [|discriminate]. cbn in Hk.
    injection Hk as <-. case_bool_decide as Hs; cbn; [intros [H _]; discriminate|].
    exact Hs.
Qed.

Lemma expire_db_challenges_count_witness :
  env_cancel_at (quiet_env cfg0) = None /\
  exists n w', expire_db_challenges (quiet_env cfg0) w_pending = (Ok n, w').
Proof.
  assert (H1 : env_cancel_at (quiet_env cfg0) = None) by reflexivity.
  split; [exact H1|].
  destruct (expire_db_challenges_count (quiet_env cfg0) w_pending H1) as (n & w' & Hr & _).
  exists n, w'. exact Hr.
Defined.

(** X20: [_monitor_fight] on a challenge whose machine is not in the table
    returns after reading the challenge, doing nothing else. *)
Theorem monitor_fight_untracked (e : Env) (w : World) (cid fid : string) :
  env_cancel_at e = None -> w_active w !! cid = None ->
  monitor_fight cid fid e w = (Ok tt, log_event (EvGetChallenge cid) (bump_awaits w)).
Proof.
  intros Hc Ha. unfold monitor_fight, try_except.
  rewrite bind_run, get_challenge_run by exact Hc.
  destruct (w_challenges w !! cid) as [c|]; [|reflexivity].
  rewrite bind_run. cbn [has_entry gets log_event bump_awaits w_active].
  rewrite Ha, bool_decide_false by (intros [? H]; discriminate). reflexivity.
Qed.

Lemma monitor_fight_untracked_witness :
  env_cancel_at (quiet_env cfg0) = None /\ w_active w_pending !! "c1" = None /\
  monitor_fight "c1" "f1" (quiet_env cfg0) w_pending =
    (Ok tt, log_event (EvGetChallenge "c1") (bump_awaits w_pending)).
Proof.
  assert (H1 : env_cancel_at (quiet_env cfg0) = None) by reflexivity.
  assert (H2 : w_active w_pending !! "c1" = None) by reflexivity.
  split; [exact H1|split; [exact H2|]].
  exact (monitor_fight_untracked (quiet_env cfg0) w_pending "c1" "f1" H1 H2).
Defined.

Lemma update_fight_metrics_runs_ok fid pid m e w :
  env_cancel_at e = None -> exists b w', update_fight_metrics fid pid m e w = (Ok b, w').
Proof. intros Hc. unfold update_fight_metrics. rewrite await_run by exact Hc. eauto. Qed.

Lemma sampling_loop_ends (fuel : nat) (c : ChallengeRec) (fid : string) (i : nat)
    (fd : Z) (m1 m2 : Metrics) (e : Env) (w : World) :
  env_cancel_at e = None -> (forall j, env_active e j = true) ->
  0 < monitoring_interval (env_config e) ->
  fd mod monitoring_interval (env_config e) = 0 -> 0 <= fd ->
  fd < Z.max 0 (max_fight_duration (env_config e)) + monitoring_interval (env_config e) ->
  max_fight_duration (env_config e) - fd <= Z.of_nat fuel * monitoring_interval (env_config e) ->
  exists d m1' m2' w', sampling_loop fuel c fid i fd m1 m2 e w = (Ok (d, m1', m2'), w') /\
    max_fight_duration (env_config e) <= d /\
    d < Z.max 0 (max_fight_duration (env_config e)) + monitoring_interval (env_config e) /\
    d mod monitoring_interval (env_config e) = 0 /\ 0 <= d.
Proof.
  intros Hc Hact HI.
  set (I := monitoring_interval (env_config e)) in *.
  set (M := max_fight_duration (env_config e)) in *.
  revert i fd m1 m2 w. induction fuel as [|fuel IH]; intros i fd m1 m2 w Hm H0 Hlt Hf.
  - eexists _, _, _, _. split; [reflexivity|]. lia.
  - cbn [sampling_loop]. rewrite bind_run. cbn [asks]. fold M.
    destruct (decide (fd < M)) as [HfM|HfM];
      [|eexists _, _, _, _; split; [reflexivity|]; lia].
    rewrite bind_run. cbn [modify]. rewrite bind_run. cbn [asks]. fold I.
    rewrite bind_run. unfold sleep. rewrite await_run by exact Hc. cbn [fst snd].
    rewrite bind_run. unfold get_fight_metrics. rewrite await_run by exact Hc. cbn [fst snd].
    assert (Hblk : forall w1, exists m1' m2' w2,
      (if metrics_truthy (env_metrics e i) then
         let '(o1, o2) := default (None, None) (env_metrics e i) in
         _ ← update_fight_metrics fid (ch_challenger_id c) (default m1 o1);
         _ ← update_fight_metrics fid (ch_opponent_id c) (default m2 o2);
         mret (default m1 o1, default m2 o2)
       else mret (m1, m2)) e w1 = (Ok (m1', m2'), w2)).
    { intros w1. destruct (metrics_truthy (env_metrics e i)).
      - destruct (default (None, None) (env_metrics e i)) as [o1 o2].
        rewrite bind_run.
        destruct (update_fight_metrics_runs_ok fid (ch_challenger_id c) (default m1 o1) e w1 Hc)
          as (b1 & w2 & ->).
        rewrite bind_run.
        destruct (update_fight_metrics_runs_ok fid (ch_opponent_id c) (default m2 o2) e w2 Hc)
          as (b2 & w3 & ->).
        eexists _, _, _. reflexivity.
      - eexists _, _, _. reflexivity. }
    rewrite bind_run.
    match goal with |- context [(if metrics_truthy _ then _ else _) e ?w1] =>
      destruct (Hblk w1) as (m1' & m2' & w2 & ->) end. clear Hblk.
    rewrite bind_run. unfold are_participants_active. rewrite await_run by exact Hc.
    cbn [fst snd]. rewrite Hact. cbn [negb].
    destruct (IH (S i) (fd + I) m1' m2'
      (log_event EvAreActive (bump_awaits w2))) as (d & m1'' & m2'' & w' & -> & Hd).
    + rewrite Z.add_mod, Z.mod_same, Hm by lia. reflexivity.
    + lia.
    + lia.
    + lia.
    + eexists _, _, _, _. split; [reflexivity|exact Hd].
Qed.
(** X21: while both participants stay active, the sampling loop of
    [_monitor_fight] runs until the fight duration reaches
    max_fight_duration: it returns a multiple of monitoring_interval that
    is at least max(0, max_fight_duration) and less than that plus one
    interval. *)
Theorem sampling_loop_duration (c : ChallengeRec) (fid : string) (m1 m2 : Metrics)
    (e : Env) (w : World) :
  env_cancel_at e = None -> (forall j, env_active e j = true) ->
  0 < monitoring_interval (env_config e) ->
  exists d m1' m2' w',
    sampling_loop (S (Z.to_nat (max_fight_duration (env_config e)))) c fid 0 0 m1 m2 e w =
      (Ok (d, m1', m2'), w') /\
    Z.max 0 (max_fight_duration (env_config e)) <= d <
      Z.max 0 (max_fight_duration (env_config e)) + monitoring_interval (env_config e) /\
    d mod monitoring_interval (env_config e) = 0.
Proof.
  intros Hc Hact HI.
  destruct (sampling_loop_ends (S (Z.to_nat (max_fight_duration (env_config e)))) c fid 0 0
              m1 m2 e w Hc Hact HI) as (d & m1' & m2' & w' & Hrun & H1 & H2 & H3 & H4).
  - apply Z.mod_0_l. lia.
  - lia.
  - lia.
  - rewrite Nat2Z.inj_succ. destruct (Z.le_gt_cases 0 (max_fight_duration (env_config e))).
    + rewrite Z2Nat.id by assumption. nia.
    + rewrite Z2Nat.nonpos by lia. lia.
  - exists d, m1', m2', w'. split; [exact Hrun|]. split; [lia|exact H3].
Qed.

Lemma sampling_loop_duration_witness :
  env_cancel_at env_all_active = None /\ (forall j, env_active env_all_active j = true) /\
  0 < monitoring_interval (env_config env_all_active) /\
  exists d m1' m2' w',
    sampling_loop (S (Z.to_nat (max_fight_duration (env_config env_all_active)))) ch0 "f1"
      0 0 initial_metrics initial_metrics env_all_active w0 = (Ok (d, m1', m2'), w').
Proof.
  assert (H1 : env_cancel_at env_all_active = None) by reflexivity.
  assert (H2 : forall j, env_active env_all_active j = true) by (intros j; reflexivity).
  assert (H3 : 0 < monitoring_interval (env_config env_all_active)) by reflexivity.
  split; [exact H1|split; [exact H2|split; [exact H3|]]].
  destruct (sampling_loop_duration ch0 "f1" initial_metrics initial_metrics env_all_active w0
              H1 H2 H3) as (d & m1' & m2' & w' & Hr & _).
  exists d, m1', m2', w'. exact Hr.
Defined.

(* ------------------------------------------------------------------ *)
(** ** The bot's callback handlers *)

Lemma prefix_app_inv (p s : string) :
  String.prefix p s = true -> exists r, s = p +:+ r.
Proof.
  revert s. induction p as [|a p IH]; intros s H.
  - exists s. reflexivity.
  - destruct s as [|b s]; [discriminate|]. cbn in H.
    destruct (ascii_dec a b) as [<-|]; [|discriminate].
    destruct (IH s H) as [r ->]. exists r. reflexivity.
Qed.

Lemma prefix_app_self (p r : string) : String.prefix p (p +:+ r) = true.
Proof.
  induction p as [|a p IH]; [destruct r; reflexivity|].
  change (String.prefix (String a p) (String a (p +:+ r)) = true). cbn [String.prefix].
  destruct (ascii_dec a a) as [_|n]; [exact IH|contradiction].
Qed.

(** X22: the Accept and Decline buttons' callback data are routed to
    [handle_challenge_response] with the button's challenge id and the
    matching answer. *)
Theorem callback_response_roundtrip (challenge_id : string) :
  callback_handler (accept_data challenge_id) = Respond challenge_id true /\
  callback_handler (decline_data challenge_id) = Respond challenge_id false.
Proof.
  unfold callback_handler, accept_data, decline_data. split.
  - rewrite prefix_app_self. reflexivity.
  - rewrite prefix_app_self. reflexivity.
Qed.



(** X24: [callback_handler] never raises [IndexError], whatever the
    callback data. *)
Theorem callback_handler_no_index_error (data : string) :
  callback_handler data <> RouteError.
Proof.
  unfold callback_handler.
  destruct (String.prefix "accept_" data) eqn:E1;
    [apply prefix_app_inv in E1 as [r ->]; discriminate|].
  destruct (String.prefix "decline_" data) eqn:E2;
    [apply prefix_app_inv in E2 as [r ->]; discriminate|].
  destruct (String.prefix "fight_type_" data) eqn:E3;
    [apply prefix_app_inv in E3 as [r ->]; discriminate|].
  discriminate.
Qed.

Lemma tg_run {A} ev (a : A) e w :
  env_cancel_at e = None ->
  await_ ev (fun _ w => (a, w)) e w = (Ok a, log_event ev (bump_awaits w)).
Proof. intros Hc. rewrite await_run by exact Hc. reflexivity. Qed.

(** X25: [handle_challenge_response] changes the stored status only when
    the challenge exists, the responder is its opponent and it is still
    PENDING, to ACCEPTED or DECLINED as answered; the table, fights and
    users are unchanged. *)
Theorem handle_challenge_response_store (e : Env) (w : World) (challenge_id : string)
    (from_id : Z) (accepted : bool) :
  env_cancel_at e = None ->
  exists w', handle_challenge_response challenge_id from_id accepted e w = (Ok tt, w') /\
    w_challenges w' =
      match w_challenges w !! challenge_id with
      | Some c =>
          if bool_decide (ch_opponent_id c = from_id /\ ch_status c = PENDING)
          then <[challenge_id := with_status (if accepted then CS_ACCEPTED else CS_DECLINED) c]>
                 (w_challenges w)
          else w_challenges w
      | None => w_challenges w
      end /\
    w_active w' = w_active w /\ w_fights w' = w_fights w /\ w_users w' = w_users w.
Proof.
  intros Hc. unfold handle_challenge_response.
  rewrite bind_run, get_challenge_run by exact Hc.
  cbn [w_challenges log_event bump_awaits].
  destruct (w_challenges w !! challenge_id) as [c|] eqn:E.
  - case_bool_decide as H1.
    { rewrite bool_decide_false by tauto. unfold answer_callback. rewrite tg_run by exact Hc.
      eexists. split; [reflexivity|]. repeat split. }
    case_bool_decide as H2.
    { rewrite bool_decide_false by tauto. unfold answer_callback. rewrite tg_run by exact Hc.
      eexists. split; [reflexivity|]. repeat split. }
    destruct accepted; rewrite bind_run; unfold update_challenge_status;
      rewrite await_run by exact Hc; cbn [fst snd w_challenges log_event bump_awaits];
      rewrite E; cbn [fst snd];
      rewrite bind_run; unfold edit_message_text; rewrite tg_run by exact Hc;
      unfold try_except, get_users, send_message; rewrite ?bind_run, !tg_run by exact Hc;
      eexists; (split; [reflexivity|]); repeat split.
    all: rewrite bool_decide_true by
      (split; [destruct (decide (ch_opponent_id c = from_id)) | destruct (decide (ch_status c = PENDING))]; tauto);
      reflexivity.
  - unfold answer_callback. rewrite tg_run by exact Hc.
    eexists. split; [reflexivity|]. repeat split.
Qed.

Lemma handle_challenge_response_store_witness :
  env_cancel_at (quiet_env cfg0) = None /\
  exists w', handle_challenge_response "c1" 2 true (quiet_env cfg0) w_pending = (Ok tt, w') /\
    w_challenges w' = <["c1" := with_status CS_ACCEPTED ch_pending]> (w_challenges w_pending).
Proof.
  assert (H1 : env_cancel_at (quiet_env cfg0) = None) by reflexivity.
  split; [exact H1|].
  destruct (handle_challenge_response_store (quiet_env cfg0) w_pending "c1" 2 true H1)
    as (w' & Hr & Hc & _). exists w'. split; [exact Hr|]. rewrite Hc. reflexivity.
Defined.
